(** * dnspod-go: request payloads and response envelopes of the domain and
      record services (domains.go, records.go)

    The two services build a form payload ([url.Values]) from their
    arguments, hand it to the client's [post] together with a fresh envelope
    to decode the JSON body into, and turn the decoded envelope into their
    results.  The embedding follows the Go code statement by statement:
    [url.Values] is a finite map from keys to lists of values, a Go [error]
    or pointer that may be [nil] is an [option], a slice that may be [nil]
    is an [option (list _)], and the client, whose code is not part of these
    files, is a record holding its common parameters and its [post]. *)

From Stdlib Require Import ZArith String DecimalString DecimalZ.
From stdpp Require Import base option list strings gmap.

Local Open Scope string_scope.

(** ** Go library pieces used by the services *)

(** [json.Number] is declared as [type Number string]. *)
Definition Number : Type := string.

(** [func (n Number) String() string { return string(n) }] *)
Definition Number_String (n : Number) : string := n.

(** [strconv.Itoa]: the decimal form of an [int], with a leading minus sign
    for negative numbers and a single ["0"] for zero.  A Go [int] is a [Z]
    here; the services only print these numbers and compare them with 0. *)
Definition Itoa (i : Z) : string := NilZero.string_of_int (Z.to_int i).

(** Reading a decimal numeral back, as [strconv.Atoi] does on the output of
    [Itoa]. *)
Definition decimal_value (s : string) : option Z :=
  option_map Z.of_int (NilZero.int_of_string s).

(** [url.Values] is [map[string][]string]. *)
Abbreviation Values := (gmap string (list string)).

(** [func (v Values) Set(key, value string) { v[key] = []string{value} }] *)
Definition Values_Set (key value : string) (v : Values) : Values :=
  <[key := [value]]> v.

(** [func (v Values) Add(key, value string) { v[key] = append(v[key], value) }];
    indexing a Go map at a missing key gives the nil slice. *)
Definition Values_Add (key value : string) (v : Values) : Values :=
  <[key := (default [] (v !! key) ++ [value])%list]> v.

(** A Go slice: [None] is the nil slice. *)
Definition slice (T : Type) : Type := option (list T).

(** ** Data model *)

(** Modelled from the spec: the [Status] struct of the response envelope is
    declared outside these files; the spec gives it a code and a message,
    which are the two fields the services read. *)
Record Status := mkStatus {
  Status_Code : string;
  Status_Message : string
}.

Record DomainInfo := mkDomainInfo {
  DomainTotal : Number;
  AllTotal : Number;
  MineTotal : Number;
  ShareTotal : Number;
  VipTotal : Number;
  IsMarkTotal : Number;
  PauseTotal : Number;
  ErrorTotal : Number;
  LockTotal : Number;
  SpamTotal : Number;
  VipExpire : Number;
  ShareOutTotal : Number
}.

Record Domain := mkDomain {
  Domain_ID : Number;
  Domain_Name : string;
  Domain_PunyCode : string;
  Domain_Grade : string;
  Domain_GradeTitle : string;
  Domain_Status : string;
  Domain_ExtStatus : string;
  Domain_Records : string;
  Domain_GroupID : Number;
  Domain_IsMark : string;
  Domain_Remark : string;
  Domain_IsVIP : string;
  Domain_SearchenginePush : string;
  Domain_UserID : string;
  Domain_CreatedOn : string;
  Domain_UpdatedOn : string;
  Domain_TTL : string;
  Domain_CNameSpeedUp : string;
  Domain_Owner : string;
  Domain_AuthToAnquanBao : bool
}.

Record Record_ := mkRecord {
  Record_ID : Number;
  Record_Name : string;
  Record_Line : string;
  Record_LineID : string;
  Record_Type : string;
  Record_TTL : string;
  Record_Value : string;
  Record_MX : string;
  Record_Enabled : string;
  Record_Status : string;
  Record_MonitorStatus : string;
  Record_Remark : string;
  Record_UpdateOn : string;
  Record_UseAQB : string
}.

(** The zero values [Status{}], [DomainInfo{}], [Domain{}] and [Record{}]. *)
Definition Status_zero : Status := mkStatus "" "".

Definition DomainInfo_zero : DomainInfo :=
  mkDomainInfo "" "" "" "" "" "" "" "" "" "" "" "".

Definition Domain_zero : Domain :=
  mkDomain "" "" "" "" "" "" "" "" "" "" "" "" "" "" "" "" "" "" "" false.

Definition Record_zero : Record_ :=
  mkRecord "" "" "" "" "" "" "" "" "" "" "" "" "" "".

(** The envelopes the JSON bodies are decoded into. *)
Record domainListWrapper := mkDomainListWrapper {
  domainListWrapper_Status : Status;
  domainListWrapper_Info : DomainInfo;
  domainListWrapper_Domains : slice Domain
}.

Record domainWrapper := mkDomainWrapper {
  domainWrapper_Status : Status;
  domainWrapper_Info : DomainInfo;
  domainWrapper_Domain : Domain
}.

Record domainLogWrapper := mkDomainLogWrapper {
  domainLogWrapper_Status : Status;
  domainLogWrapper_Log : slice string
}.

Record recordsWrapper := mkRecordsWrapper {
  recordsWrapper_Status : Status;
  recordsWrapper_Info : DomainInfo;
  recordsWrapper_Records : slice Record_
}.

Record recordWrapper := mkRecordWrapper {
  recordWrapper_Status : Status;
  recordWrapper_Info : DomainInfo;
  recordWrapper_Record : Record_
}.

(** [domainListWrapper{}] and the other empty envelopes. *)
Definition domainListWrapper_zero : domainListWrapper :=
  mkDomainListWrapper Status_zero DomainInfo_zero None.

Definition domainWrapper_zero : domainWrapper :=
  mkDomainWrapper Status_zero DomainInfo_zero Domain_zero.

Definition domainLogWrapper_zero : domainLogWrapper :=
  mkDomainLogWrapper Status_zero None.

Definition recordsWrapper_zero : recordsWrapper :=
  mkRecordsWrapper Status_zero DomainInfo_zero None.

Definition recordWrapper_zero : recordWrapper :=
  mkRecordWrapper Status_zero DomainInfo_zero Record_zero.

(** [post] takes its decoding target as an [interface{}]; the services pass
    a pointer to one of the five envelopes, and this is the tag of that
    dynamic type. *)
Inductive wrapperKind : Type :=
  | KdomainList
  | Kdomain
  | KdomainLog
  | Krecords
  | Krecord.

Definition wrapperOf (k : wrapperKind) : Type :=
  match k with
  | KdomainList => domainListWrapper
  | Kdomain => domainWrapper
  | KdomainLog => domainLogWrapper
  | Krecords => recordsWrapper
  | Krecord => recordWrapper
  end.

(** The remote method names. *)
Definition methodDomainList : string := "Domain.List".
Definition methodDomainCreate : string := "Domain.Create".
Definition methodDomainInfo : string := "Domain.Info".
Definition methodDomainRemove : string := "Domain.Remove".
Definition methodDomainLog : string := "Domain.Log".
Definition methodRecordList : string := "Record.List".
Definition methodRecordCreate : string := "Record.Create".
Definition methodRecordInfo : string := "Record.Info".
Definition methodRecordRemove : string := "Record.Remove".
Definition methodRecordModify : string := "Record.Modify".
Definition methodRecordRemark : string := "Record.Remark".

(** ** The client, the request types and the services *)

Section Services.

(** The types the files use without declaring them: the response
    descriptor behind [*Response], the embedded [CommonParams] block, and
    the error values the transport produces.  [CommonParams.toPayLoad]
    builds the fresh [url.Values] every payload starts from. *)
Context {Response CommonParams TransportError : Type}.
Variable CommonParams_toPayLoad : CommonParams → Values.

(** A Go [error] that is not [nil]: either a value handed over by the
    transport, or what [fmt.Errorf] builds, kept by its text. *)
Inductive error : Type :=
  | transportError (e : TransportError)
  | errorString (text : string).

(** [fmt.Errorf(format, arg)] for the formats of these files, which end in
    their only verb [%s]: [prefix] is the format up to the verb, and [%s]
    prints a string argument as it is. *)
Definition fmt_Errorf (prefix arg : string) : error :=
  errorString (prefix +:+ arg).

(** Modelled from the spec: [Client] is declared outside these files.  It
    holds the common parameters attached to every request, and
    [post(method, payload, target)] performs the call, decodes the body
    into [target] and returns a response descriptor and an error; the
    target after the call is the first component of the result. *)
Record Client := mkClient {
  Client_CommonParams : CommonParams;
  Client_post : ∀ k : wrapperKind,
    string → Values → wrapperOf k →
    wrapperOf k * option Response * option error
}.

Record DomainsService := mkDomainsService {
  DomainsService_client : Client
}.

Record RecordsService := mkRecordsService {
  RecordsService_client : Client
}.

Record DomainLogRequest := mkDomainLogRequest {
  DomainLogRequest_CommonParams : CommonParams;
  DomainLogRequest_DomainId : string;
  DomainLogRequest_Domain : string;
  DomainLogRequest_Offset : Z;
  DomainLogRequest_Length : Z
}.

Definition DomainLogRequest_toPayLoad (c : DomainLogRequest) : Values :=
  let p := CommonParams_toPayLoad (DomainLogRequest_CommonParams c) in
  let p :=
    if decide (DomainLogRequest_DomainId c ≠ "")
    then Values_Set "domain_id" (DomainLogRequest_DomainId c) p
    else Values_Set "domain" (DomainLogRequest_Domain c) p in
  let p :=
    if decide (DomainLogRequest_Offset c ≠ 0%Z)
    then Values_Set "offset" (Itoa (DomainLogRequest_Offset c)) p
    else p in
  let p :=
    if decide (DomainLogRequest_Length c ≠ 0%Z)
    then Values_Set "length" (Itoa (DomainLogRequest_Length c)) p
    else p in
  p.

Record DomainListRequest := mkDomainListRequest {
  DomainListRequest_CommonParams : CommonParams;
  DomainListRequest_Type : string;
  DomainListRequest_Offset : string;
  DomainListRequest_Length : string;
  DomainListRequest_GroupId : string;
  DomainListRequest_Keyword : string
}.

Definition DomainListRequest_toPayLOad (c : DomainListRequest) : Values :=
  let p := CommonParams_toPayLoad (DomainListRequest_CommonParams c) in
  let p :=
    if decide (DomainListRequest_Type c ≠ "")
    then Values_Set "type" (DomainListRequest_Type c) p else p in
  let p :=
    if decide (DomainListRequest_Offset c ≠ "")
    then Values_Set "offset" (DomainListRequest_Offset c) p else p in
  let p :=
    if decide (DomainListRequest_Length c ≠ "")
    then Values_Set "length" (DomainListRequest_Length c) p else p in
  let p :=
    if decide (DomainListRequest_GroupId c ≠ "")
    then Values_Set "group_id" (DomainListRequest_GroupId c) p else p in
  let p :=
    if decide (DomainListRequest_Keyword c ≠ "")
    then Values_Set "keyword" (DomainListRequest_Keyword c) p else p in
  p.

Record RecordListRequest := mkRecordListRequest {
  RecordListRequest_CommonParams : CommonParams;
  RecordListRequest_DomainId : string;
  RecordListRequest_Domain : string;
  RecordListRequest_Offset : string;
  RecordListRequest_Length : string;
  RecordListRequest_SubDomain : string;
  RecordListRequest_RecordType : string;
  RecordListRequest_RecordLine : string;
  RecordListRequest_RecordLIneId : string;
  RecordListRequest_KeyWord : string
}.

Definition RecordListRequest_toPayLOad (r : RecordListRequest) : Values :=
  let p := CommonParams_toPayLoad (RecordListRequest_CommonParams r) in
  let p :=
    if decide (RecordListRequest_DomainId r ≠ "")
    then Values_Add "domain_id" (RecordListRequest_DomainId r) p else p in
  let p :=
    if decide (RecordListRequest_Domain r ≠ "")
    then Values_Add "domain" (RecordListRequest_Domain r) p else p in
  let p :=
    if decide (RecordListRequest_Offset r ≠ "")
    then Values_Add "offset" (RecordListRequest_Offset r) p else p in
  let p :=
    if decide (RecordListRequest_Length r ≠ "")
    then Values_Add "length" (RecordListRequest_Length r) p else p in
  let p :=
    if decide (RecordListRequest_SubDomain r ≠ "")
    then Values_Add "sub_domain" (RecordListRequest_SubDomain r) p else p in
  let p :=
    if decide (RecordListRequest_RecordType r ≠ "")
    then Values_Add "record_type" (RecordListRequest_RecordType r) p
    else p in
  let p :=
    if decide (RecordListRequest_RecordLine r ≠ "")
    then Values_Add "record_line" (RecordListRequest_RecordLine r) p
    else p in
  let p :=
    if decide (RecordListRequest_RecordLIneId r ≠ "")
    then Values_Add "record_line_id" (RecordListRequest_RecordLIneId r) p
    else p in
  let p :=
    if decide (RecordListRequest_KeyWord r ≠ "")
    then Values_Add "keyword" (RecordListRequest_KeyWord r) p else p in
  p.

(** *** DomainsService *)

Definition DomainsService_List (s : DomainsService)
    (request : DomainListRequest)
    : slice Domain * option Response * option error :=
  let payLoad := DomainListRequest_toPayLOad request in
  let returnedDomains := domainListWrapper_zero in
  let '(returnedDomains, res, err) :=
    Client_post (DomainsService_client s) KdomainList
      methodDomainList payLoad returnedDomains in
  match err with
  | Some _ => (None, res, err)
  | None =>
    if decide (Status_Code (domainListWrapper_Status returnedDomains) ≠ "1")
    then (None, None,
          Some (fmt_Errorf "could not get domains: "
                  (Status_Message (domainListWrapper_Status returnedDomains))))
    else (domainListWrapper_Domains returnedDomains, res, None)
  end.

(** The payload [Create] builds before the call. *)
Definition DomainsService_Create_payload (s : DomainsService)
    (domainAttributes : Domain) : Values :=
  let payload :=
    CommonParams_toPayLoad (Client_CommonParams (DomainsService_client s)) in
  let payload := Values_Set "domain" (Domain_Name domainAttributes) payload in
  let payload :=
    Values_Set "group_id" (Number_String (Domain_GroupID domainAttributes))
      payload in
  let payload :=
    Values_Set "is_mark" (Domain_IsMark domainAttributes) payload in
  payload.

Definition DomainsService_Create (s : DomainsService)
    (domainAttributes : Domain)
    : Domain * option Response * option error :=
  let payload := DomainsService_Create_payload s domainAttributes in
  let returnedDomain := domainWrapper_zero in
  let '(returnedDomain, res, err) :=
    Client_post (DomainsService_client s) Kdomain
      methodDomainCreate payload returnedDomain in
  match err with
  | Some _ => (Domain_zero, res, err)
  | None => (domainWrapper_Domain returnedDomain, res, None)
  end.

(** The payload of [Get] and of [Delete]. *)
Definition DomainsService_id_payload (s : DomainsService) (id : Z)
    : Values :=
  let payload :=
    CommonParams_toPayLoad (Client_CommonParams (DomainsService_client s)) in
  let payload := Values_Set "domain_id" (Itoa id) payload in
  payload.

Definition DomainsService_Get (s : DomainsService) (id : Z)
    : Domain * option Response * option error :=
  let payload := DomainsService_id_payload s id in
  let returnedDomain := domainWrapper_zero in
  let '(returnedDomain, res, err) :=
    Client_post (DomainsService_client s) Kdomain
      methodDomainInfo payload returnedDomain in
  match err with
  | Some _ => (Domain_zero, res, err)
  | None => (domainWrapper_Domain returnedDomain, res, None)
  end.

Definition DomainsService_Delete (s : DomainsService) (id : Z)
    : option Response * option error :=
  let payload := DomainsService_id_payload s id in
  let returnedDomain := domainWrapper_zero in
  let '(_, res, err) :=
    Client_post (DomainsService_client s) Kdomain
      methodDomainRemove payload returnedDomain in
  (res, err).

Definition DomainsService_Log (s : DomainsService)
    (request : DomainLogRequest) : slice string * option error :=
  let payload := DomainLogRequest_toPayLoad request in
  let returnedDomain := domainLogWrapper_zero in
  let '(returnedDomain, _, err) :=
    Client_post (DomainsService_client s) KdomainLog
      methodDomainLog payload returnedDomain in
  match err with
  | Some _ => (None, err)
  | None =>
    if decide (Status_Code (domainLogWrapper_Status returnedDomain) ≠ "1")
    then (None,
          Some (fmt_Errorf "could not get domain logs: "
                  (Status_Message (domainLogWrapper_Status returnedDomain))))
    else (domainLogWrapper_Log returnedDomain, None)
  end.

(** *** RecordsService *)

Definition RecordsService_List (s : RecordsService)
    (request : RecordListRequest)
    : slice Record_ * option Response * option error :=
  let payload := RecordListRequest_toPayLOad request in
  let wrappedRecords := recordsWrapper_zero in
  let '(wrappedRecords, res, err) :=
    Client_post (RecordsService_client s) Krecords
      methodRecordList payload wrappedRecords in
  match err with
  | Some _ => (None, res, err)
  | None =>
    if decide (Status_Code (recordsWrapper_Status wrappedRecords) ≠ "1")
    then (None, None,
          Some (fmt_Errorf "could not get domains: "
                  (Status_Message (recordsWrapper_Status wrappedRecords))))
    else (recordsWrapper_Records wrappedRecords, res, None)
  end.

Definition RecordsService_Create_payload (s : RecordsService)
    (domain : string) (recordAttributes : Record_) : Values :=
  let payload :=
    CommonParams_toPayLoad (Client_CommonParams (RecordsService_client s)) in
  let payload := Values_Add "domain_id" domain payload in
  let payload :=
    if decide (Record_Name recordAttributes ≠ "")
    then Values_Add "sub_domain" (Record_Name recordAttributes) payload
    else payload in
  let payload :=
    if decide (Record_Type recordAttributes ≠ "")
    then Values_Add "record_type" (Record_Type recordAttributes) payload
    else payload in
  let payload :=
    if decide (Record_Line recordAttributes ≠ "")
    then Values_Add "record_line" (Record_Line recordAttributes) payload
    else payload in
  let payload :=
    if decide (Record_LineID recordAttributes ≠ "")
    then Values_Add "record_line_id" (Record_LineID recordAttributes) payload
    else payload in
  let payload :=
    if decide (Record_Value recordAttributes ≠ "")
    then Values_Add "value" (Record_Value recordAttributes) payload
    else payload in
  let payload :=
    if decide (Record_MX recordAttributes ≠ "")
    then Values_Add "mx" (Record_MX recordAttributes) payload
    else payload in
  let payload :=
    if decide (Record_TTL recordAttributes ≠ "")
    then Values_Add "ttl" (Record_TTL recordAttributes) payload
    else payload in
  let payload :=
    if decide (Record_Status recordAttributes ≠ "")
    then Values_Add "status" (Record_Status recordAttributes) payload
    else payload in
  payload.

Definition RecordsService_Create (s : RecordsService) (domain : string)
    (recordAttributes : Record_)
    : Record_ * option Response * option error :=
  let payload := RecordsService_Create_payload s domain recordAttributes in
  let returnedRecord := recordWrapper_zero in
  let '(returnedRecord, res, err) :=
    Client_post (RecordsService_client s) Krecord
      methodRecordCreate payload returnedRecord in
  match err with
  | Some _ => (Record_zero, res, err)
  | None =>
    if decide (Status_Code (recordWrapper_Status returnedRecord) ≠ "1")
    then (recordWrapper_Record returnedRecord, None,
          Some (fmt_Errorf "could not get domains: "
                  (Status_Message (recordWrapper_Status returnedRecord))))
    else (recordWrapper_Record returnedRecord, res, None)
  end.

(** The payload of [Get] and of [Delete]. *)
Definition RecordsService_id_payload (s : RecordsService)
    (domain recordID : string) : Values :=
  let payload :=
    CommonParams_toPayLoad (Client_CommonParams (RecordsService_client s)) in
  let payload := Values_Add "domain_id" domain payload in
  let payload := Values_Add "record_id" recordID payload in
  payload.

Definition RecordsService_Get (s : RecordsService)
    (domain recordID : string)
    : Record_ * option Response * option error :=
  let payload := RecordsService_id_payload s domain recordID in
  let returnedRecord := recordWrapper_zero in
  let '(returnedRecord, res, err) :=
    Client_post (RecordsService_client s) Krecord
      methodRecordInfo payload returnedRecord in
  match err with
  | Some _ => (Record_zero, res, err)
  | None =>
    if decide (Status_Code (recordWrapper_Status returnedRecord) ≠ "1")
    then (recordWrapper_Record returnedRecord, None,
          Some (fmt_Errorf "could not get domains: "
                  (Status_Message (recordWrapper_Status returnedRecord))))
    else (recordWrapper_Record returnedRecord, res, None)
  end.

Definition RecordsService_Update_payload (s : RecordsService)
    (domain recordID : string) (recordAttributes : Record_) : Values :=
  let payload :=
    CommonParams_toPayLoad (Client_CommonParams (RecordsService_client s)) in
  let payload := Values_Add "domain_id" domain payload in
  let payload :=
    if decide (Record_ID recordAttributes ≠ "")
    then Values_Add "record_id" (Record_ID recordAttributes) payload
    else payload in
  let payload :=
    if decide (Record_Name recordAttributes ≠ "")
    then Values_Add "sub_domain" (Record_Name recordAttributes) payload
    else payload in
  let payload :=
    if decide (Record_ID recordAttributes = "" ∧ recordID ≠ "")
    then Values_Add "record_id" recordID payload
    else payload in
  let payload :=
    if decide (Record_Type recordAttributes ≠ "")
    then Values_Add "record_type" (Record_Type recordAttributes) payload
    else payload in
  let payload :=
    if decide (Record_Line recordAttributes ≠ "")
    then Values_Add "record_line" (Record_Line recordAttributes) payload
    else payload in
  let payload :=
    if decide (Record_LineID recordAttributes ≠ "")
    then Values_Add "record_line_id" (Record_LineID recordAttributes) payload
    else payload in
  let payload :=
    if decide (Record_Value recordAttributes ≠ "")
    then Values_Add "value" (Record_Value recordAttributes) payload
    else payload in
  let payload :=
    if decide (Record_MX recordAttributes ≠ "")
    then Values_Add "mx" (Record_MX recordAttributes) payload
    else payload in
  let payload :=
    if decide (Record_TTL recordAttributes ≠ "")
    then Values_Add "ttl" (Record_TTL recordAttributes) payload
    else payload in
  let payload :=
    if decide (Record_Status recordAttributes ≠ "")
    then Values_Add "status" (Record_Status recordAttributes) payload
    else payload in
  payload.

Definition RecordsService_Update (s : RecordsService)
    (domain recordID : string) (recordAttributes : Record_)
    : Record_ * option Response * option error :=
  let payload :=
    RecordsService_Update_payload s domain recordID recordAttributes in
  let returnedRecord := recordWrapper_zero in
  let '(returnedRecord, res, err) :=
    Client_post (RecordsService_client s) Krecord
      methodRecordModify payload returnedRecord in
  match err with
  | Some _ => (Record_zero, res, err)
  | None =>
    if decide (Status_Code (recordWrapper_Status returnedRecord) ≠ "1")
    then (recordWrapper_Record returnedRecord, None,
          Some (fmt_Errorf "could not get domains: "
                  (Status_Message (recordWrapper_Status returnedRecord))))
    else (recordWrapper_Record returnedRecord, res, None)
  end.

Definition RecordsService_Remark_payload (s : RecordsService)
    (domain recordID : string) (recordAttributes : Record_) : Values :=
  let payload :=
    CommonParams_toPayLoad (Client_CommonParams (RecordsService_client s)) in
  let payload := Values_Add "domain_id" domain payload in
  let payload :=
    if decide (Record_ID recordAttributes ≠ "")
    then Values_Add "record_id" (Record_ID recordAttributes) payload
    else payload in
  let payload :=
    if decide (Record_ID recordAttributes = "" ∧ recordID ≠ "")
    then Values_Add "record_id" recordID payload
    else payload in
  let payload :=
    if decide (Record_Remark recordAttributes ≠ "")
    then Values_Add "remark" (Record_Remark recordAttributes) payload
    else payload in
  payload.

Definition RecordsService_Remark (s : RecordsService)
    (domain recordID : string) (recordAttributes : Record_)
    : Record_ * option Response * option error :=
  let payload :=
    RecordsService_Remark_payload s domain recordID recordAttributes in
  let returnedRecord := recordWrapper_zero in
  let '(returnedRecord, res, err) :=
    Client_post (RecordsService_client s) Krecord
      methodRecordRemark payload returnedRecord in
  match err with
  | Some _ => (Record_zero, res, err)
  | None =>
    if decide (Status_Code (recordWrapper_Status returnedRecord) ≠ "1")
    then (recordWrapper_Record returnedRecord, None,
          Some (fmt_Errorf "could not get domains: "
                  (Status_Message (recordWrapper_Status returnedRecord))))
    else (recordWrapper_Record returnedRecord, res, None)
  end.

Definition RecordsService_Delete (s : RecordsService)
    (domain recordID : string) : option Response * option error :=
  let payload := RecordsService_id_payload s domain recordID in
  let returnedRecord := recordWrapper_zero in
  let '(returnedRecord, res, err) :=
    Client_post (RecordsService_client s) Krecord
      methodRecordRemove payload returnedRecord in
  match err with
  | Some _ => (res, err)
  | None =>
    if decide (Status_Code (recordWrapper_Status returnedRecord) ≠ "1")
    then (None,
          Some (fmt_Errorf "could not get domains: "
                  (Status_Message (recordWrapper_Status returnedRecord))))
    else (res, None)
  end.

(** *** The call behind each operation

    Every operation calls [post] once; these name that call, with the
    method, the payload and the empty envelope the operation passes. *)

Definition DomainsService_List_post (s : DomainsService)
    (request : DomainListRequest) :=
  Client_post (DomainsService_client s) KdomainList methodDomainList
    (DomainListRequest_toPayLOad request) domainListWrapper_zero.

Definition DomainsService_Create_post (s : DomainsService)
    (domainAttributes : Domain) :=
  Client_post (DomainsService_client s) Kdomain methodDomainCreate
    (DomainsService_Create_payload s domainAttributes) domainWrapper_zero.

Definition DomainsService_Get_post (s : DomainsService) (id : Z) :=
  Client_post (DomainsService_client s) Kdomain methodDomainInfo
    (DomainsService_id_payload s id) domainWrapper_zero.

Definition DomainsService_Delete_post (s : DomainsService) (id : Z) :=
  Client_post (DomainsService_client s) Kdomain methodDomainRemove
    (DomainsService_id_payload s id) domainWrapper_zero.

Definition DomainsService_Log_post (s : DomainsService)
    (request : DomainLogRequest) :=
  Client_post (DomainsService_client s) KdomainLog methodDomainLog
    (DomainLogRequest_toPayLoad request) domainLogWrapper_zero.

Definition RecordsService_List_post (s : RecordsService)
    (request : RecordListRequest) :=
  Client_post (RecordsService_client s) Krecords methodRecordList
    (RecordListRequest_toPayLOad request) recordsWrapper_zero.

Definition RecordsService_Create_post (s : RecordsService)
    (domain : string) (recordAttributes : Record_) :=
  Client_post (RecordsService_client s) Krecord methodRecordCreate
    (RecordsService_Create_payload s domain recordAttributes)
    recordWrapper_zero.

Definition RecordsService_Get_post (s : RecordsService)
    (domain recordID : string) :=
  Client_post (RecordsService_client s) Krecord methodRecordInfo
    (RecordsService_id_payload s domain recordID) recordWrapper_zero.

Definition RecordsService_Update_post (s : RecordsService)
    (domain recordID : string) (recordAttributes : Record_) :=
  Client_post (RecordsService_client s) Krecord methodRecordModify
    (RecordsService_Update_payload s domain recordID recordAttributes)
    recordWrapper_zero.

Definition RecordsService_Remark_post (s : RecordsService)
    (domain recordID : string) (recordAttributes : Record_) :=
  Client_post (RecordsService_client s) Krecord methodRecordRemark
    (RecordsService_Remark_payload s domain recordID recordAttributes)
    recordWrapper_zero.

Definition RecordsService_Delete_post (s : RecordsService)
    (domain recordID : string) :=
  Client_post (RecordsService_client s) Krecord methodRecordRemove
    (RecordsService_id_payload s domain recordID) recordWrapper_zero.

End Services.

Arguments error : clear implicits.
Arguments Client : clear implicits.
Arguments DomainsService : clear implicits.
Arguments RecordsService : clear implicits.
Arguments DomainLogRequest : clear implicits.
Arguments DomainListRequest : clear implicits.
Arguments RecordListRequest : clear implicits.

(** ** Reading a payload *)

(** The statement [if cond { p.Add(key, value) }] (or [p.Set]) as one step
    on the payload; the builders are chains of such steps, see the
    [_steps] lemmas below. *)
Definition guarded (P : Prop) `{Decision P} (f : Values → Values)
    (p : Values) : Values :=
  if decide P then f p else p.

(** The seven optional attributes [Create] and [Update] send alike, from
    the record type on. *)
Definition record_attribute_steps (a : Record_) (p : Values) : Values :=
  guarded (Record_Status a ≠ "") (Values_Add "status" (Record_Status a))
    (guarded (Record_TTL a ≠ "") (Values_Add "ttl" (Record_TTL a))
       (guarded (Record_MX a ≠ "") (Values_Add "mx" (Record_MX a))
          (guarded (Record_Value a ≠ "")
             (Values_Add "value" (Record_Value a))
             (guarded (Record_LineID a ≠ "")
                (Values_Add "record_line_id" (Record_LineID a))
                (guarded (Record_Line a ≠ "")
                   (Values_Add "record_line" (Record_Line a))
                   (guarded (Record_Type a ≠ "")
                      (Values_Add "record_type" (Record_Type a)) p)))))).

(** What a payload holds at [key] when the builder was meant to put the
    optional [value] there and nothing else did: no entry for the empty
    string, the value alone otherwise. *)
Definition emitted_iff_nonempty (p : Values) (key value : string) : Prop :=
  p !! key = if decide (value = "") then None else Some [value].

(** The same for an [int] field, whose empty value is [0] and which is sent
    in decimal. *)
Definition emitted_iff_nonzero (p : Values) (key : string) (value : Z)
    : Prop :=
  p !! key = if decide (value = 0%Z) then None else Some [Itoa value].

(** The record template of [Create], [Update] and [Remark]. *)
Definition template_attributes_emitted (p : Values) (a : Record_) : Prop :=
  emitted_iff_nonempty p "sub_domain" (Record_Name a)
  ∧ emitted_iff_nonempty p "record_type" (Record_Type a)
  ∧ emitted_iff_nonempty p "record_line" (Record_Line a)
  ∧ emitted_iff_nonempty p "record_line_id" (Record_LineID a)
  ∧ emitted_iff_nonempty p "value" (Record_Value a)
  ∧ emitted_iff_nonempty p "mx" (Record_MX a)
  ∧ emitted_iff_nonempty p "ttl" (Record_TTL a)
  ∧ emitted_iff_nonempty p "status" (Record_Status a).

(** None of the eight attribute keys is in the payload. *)
Definition template_attributes_absent (p : Values) : Prop :=
  p !! "sub_domain" = None
  ∧ p !! "record_type" = None
  ∧ p !! "record_line" = None
  ∧ p !! "record_line_id" = None
  ∧ p !! "value" = None
  ∧ p !! "mx" = None
  ∧ p !! "ttl" = None
  ∧ p !! "status" = None.

(** The entry of a key after a builder added [new] (or nothing) to the entry
    [old] it found there. *)
Definition appended (old : option (list string)) (new : option string)
    : option (list string) :=
  match new with
  | Some value => Some (default [] old ++ [value])%list
  | None => old
  end.

(** The descriptor a status-checking operation returns, from the outcome
    of its call: the call's own descriptor, except that a status code
    other than ["1"] on a call without error replaces it by [nil]. *)
Definition descriptor_returned {Response TransportError : Type}
    (st : Status) (res : option Response)
    (err : option (error TransportError)) : option Response :=
  match err with
  | Some _ => res
  | None => if decide (Status_Code st ≠ "1") then None else res
  end.

(** The keys the two services write. *)
Definition operation_keys : list string :=
  [ "domain_id"; "domain"; "offset"; "length"; "type"; "group_id"; "keyword";
    "is_mark"; "sub_domain"; "record_type"; "record_line"; "record_line_id";
    "record_id"; "value"; "mx"; "ttl"; "status"; "remark" ].

(** The common parameters bring none of the operations' keys. *)
Definition common_only (p : Values) : Prop :=
  Forall (λ key, p !! key = None) operation_keys.

(** ** A concrete transport, for the examples

    The common parameters are a login token, the response descriptor is the
    HTTP status line, a transport error is its message.  [demo_post] answers
    every call with the same status block [st], a fixed entity, and the
    error [err]. *)
Definition demo_toPayLoad (token : string) : Values :=
  {[ "login_token" := [token] ]}.

Definition demo_info : DomainInfo :=
  mkDomainInfo "1" "1" "1" "" "" "" "" "" "" "" "" "".

Definition demo_domain : Domain :=
  mkDomain "42" "example.com" "example.com" "DP_Free" "" "enable" ""
    "3" "1" "no" "" "no" "yes" "7" "" "" "600" "enable" "me@example.com"
    false.

Definition demo_record : Record_ :=
  mkRecord "99" "www" "default" "0" "A" "600" "192.0.2.1" "0" "1" "enable"
    "" "x" "" "no".

Definition demo_post (st : Status) (err : option (error string))
    (k : wrapperKind) (method : string) (payload : Values)
    (target : wrapperOf k)
    : wrapperOf k * option string * option (error string) :=
  (match k return wrapperOf k with
   | KdomainList => mkDomainListWrapper st demo_info (Some [demo_domain])
   | Kdomain => mkDomainWrapper st demo_info demo_domain
   | KdomainLog => mkDomainLogWrapper st (Some ["created"; "updated"])
   | Krecords => mkRecordsWrapper st demo_info (Some [demo_record])
   | Krecord => mkRecordWrapper st demo_info demo_record
   end,
   Some "200 OK", err).

Definition demo_client (st : Status) (err : option (error string))
    : Client string string string :=
  mkClient "token" (demo_post st err).

Definition demo_domains (st : Status) (err : option (error string))
    : DomainsService string string string :=
  mkDomainsService (demo_client st err).

Definition demo_records (st : Status) (err : option (error string))
    : RecordsService string string string :=
  mkRecordsService (demo_client st err).

Definition status_ok : Status := mkStatus "1" "Action completed successful".

Definition status_failed : Status := mkStatus "6" "Invalid domain id".

Definition demo_list_request : DomainListRequest string :=
  mkDomainListRequest "token" "mine" "" "20" "" "".

Definition demo_record_list_request : RecordListRequest string :=
  mkRecordListRequest "token" "12345" "" "" "" "" "" "" "" "".

(** Both identifiers of the domain filled in. *)
Definition demo_record_list_request_both : RecordListRequest string :=
  mkRecordListRequest "token" "12345" "example.com" "" "" "" "" "" "" "".

Definition demo_log_request : DomainLogRequest string :=
  mkDomainLogRequest "token" "12345" "example.com" 0 50.

(** A log request with no identifier at all. *)
Definition demo_log_request_empty : DomainLogRequest string :=
  mkDomainLogRequest "token" "" "" 0 0.

(** The template of the spec's scenario, [Record{ID:"", Remark:"x"}]. *)
Definition demo_template : Record_ :=
  mkRecord "" "" "" "" "" "" "" "" "" "" "" "x" "" "".

(** ** Further vocabulary for the payloads *)

(** An optional string field: nothing when it is empty. *)
Definition optional (value : string) : option string :=
  if decide (value = "") then None else Some value.

(** The entry of a key after a builder set it to [new] (or left it alone),
    [old] being the entry it found there. *)
Definition overwritten (old : option (list string)) (new : option string)
    : option (list string) :=
  match new with
  | Some value => Some [value]
  | None => old
  end.

(** The integer a reader finds at [key]: the first value, read as a decimal
    numeral. *)
Definition sent_number (p : Values) (key : string) : option Z :=
  match p !! key with
  | Some (value :: _) => decimal_value value
  | _ => None
  end.

(** The attributes of the record template, each added to what [common]
    holds at its key when it is not empty. *)
Definition attributes_appended (common p : Values) (a : Record_) : Prop :=
  p !! "sub_domain"
    = appended (common !! "sub_domain") (optional (Record_Name a))
  ∧ p !! "record_type"
    = appended (common !! "record_type") (optional (Record_Type a))
  ∧ p !! "record_line"
    = appended (common !! "record_line") (optional (Record_Line a))
  ∧ p !! "record_line_id"
    = appended (common !! "record_line_id") (optional (Record_LineID a))
  ∧ p !! "value" = appended (common !! "value") (optional (Record_Value a))
  ∧ p !! "mx" = appended (common !! "mx") (optional (Record_MX a))
  ∧ p !! "ttl" = appended (common !! "ttl") (optional (Record_TTL a))
  ∧ p !! "status"
    = appended (common !! "status") (optional (Record_Status a)).

(** The keys each builder can write. *)
Definition DomainLogRequest_keys : list string :=
  [ "domain_id"; "domain"; "offset"; "length" ].

Definition DomainListRequest_keys : list string :=
  [ "type"; "offset"; "length"; "group_id"; "keyword" ].

Definition RecordListRequest_keys : list string :=
  [ "domain_id"; "domain"; "offset"; "length"; "sub_domain"; "record_type";
    "record_line"; "record_line_id"; "keyword" ].

Definition DomainsService_Create_keys : list string :=
  [ "domain"; "group_id"; "is_mark" ].

Definition RecordsService_Create_keys : list string :=
  [ "domain_id"; "sub_domain"; "record_type"; "record_line";
    "record_line_id"; "value"; "mx"; "ttl"; "status" ].

Definition RecordsService_Update_keys : list string :=
  "record_id" :: RecordsService_Create_keys.

Definition RecordsService_Remark_keys : list string :=
  [ "domain_id"; "record_id"; "remark" ].

(** Common parameters that already hold an [offset], to see what the
    builders do with a key they find. *)
Definition demo_toPayLoad_offset (token : string) : Values :=
  {[ "login_token" := [token]; "offset" := ["5"] ]}.

Definition demo_list_request_paged : DomainListRequest string :=
  mkDomainListRequest "token" "" "10" "" "" "".

Definition demo_record_list_request_paged : RecordListRequest string :=
  mkRecordListRequest "token" "12345" "" "10" "" "" "" "" "" "".

(** A transport that reports no error and decodes nothing: the envelope
    comes back as it was passed. *)
Definition demo_post_untouched (k : wrapperKind) (method : string)
    (payload : Values) (target : wrapperOf k)
    : wrapperOf k * option string * option (error string) :=
  (target, Some "200 OK", None).

Definition demo_domains_untouched : DomainsService string string string :=
  mkDomainsService (mkClient "token" demo_post_untouched).

Definition demo_records_untouched : RecordsService string string string :=
  mkRecordsService (mkClient "token" demo_post_untouched).

(** * Properties *)

(** ** Decimal form *)

Lemma Itoa_decimal_value (i : Z) : decimal_value (Itoa i) = Some i.
Proof.
  unfold decimal_value, Itoa.
  assert (Hnil : ∀ d, Z.of_int d = 0%Z → Z.to_int i = d →
                      d ≠ Z.to_int 0 → False).
  { intros d Hd Hi Hne. apply Hne. rewrite <- Hi. f_equal.
    rewrite <- (DecimalZ.of_to i), Hi. exact Hd. }
  rewrite NilZero.isi.
  - simpl. by rewrite DecimalZ.of_to.
  - intros H. by apply (Hnil (Decimal.Pos Decimal.Nil) eq_refl H).
  - intros H. by apply (Hnil (Decimal.Neg Decimal.Nil) eq_refl H).
Qed.

Lemma Itoa_inj (i j : Z) : Itoa i = Itoa j → i = j.
Proof.
  intros H. apply (f_equal decimal_value) in H.
  rewrite !Itoa_decimal_value in H. by injection H.
Qed.

Example Itoa_examples :
  Itoa 0 = "0" ∧ Itoa 50 = "50" ∧ Itoa (-7) = "-7"
  ∧ Itoa 9223372036854775807 = "9223372036854775807".
Proof. split_and!; reflexivity. Qed.

(** ** Lookups in a payload *)

Lemma lookup_Values_Set_eq key value (p : Values) :
  Values_Set key value p !! key = Some [value].
Proof. unfold Values_Set. apply lookup_insert_eq. Qed.

Lemma lookup_Values_Set_ne key key' value (p : Values) :
  key ≠ key' → Values_Set key value p !! key' = p !! key'.
Proof. intros Hne. unfold Values_Set. by apply lookup_insert_ne. Qed.

Lemma lookup_Values_Add_eq key value (p : Values) :
  Values_Add key value p !! key
  = Some (default [] (p !! key) ++ [value])%list.
Proof. unfold Values_Add. apply lookup_insert_eq. Qed.

Lemma lookup_Values_Add_ne key key' value (p : Values) :
  key ≠ key' → Values_Add key value p !! key' = p !! key'.
Proof. intros Hne. unfold Values_Add. by apply lookup_insert_ne. Qed.

Lemma lookup_guarded_Set_eq P `{Decision P} key value (p : Values) :
  guarded P (Values_Set key value) p !! key
  = if decide P then Some [value] else p !! key.
Proof.
  unfold guarded. destruct (decide P); [apply lookup_Values_Set_eq | done].
Qed.

Lemma lookup_guarded_Set_ne P `{Decision P} key key' value (p : Values) :
  key ≠ key' → guarded P (Values_Set key value) p !! key' = p !! key'.
Proof.
  intros Hne. unfold guarded.
  destruct (decide P); [by apply lookup_Values_Set_ne | done].
Qed.

Lemma lookup_guarded_Add_eq P `{Decision P} key value (p : Values) :
  guarded P (Values_Add key value) p !! key
  = if decide P then Some (default [] (p !! key) ++ [value])%list
    else p !! key.
Proof.
  unfold guarded. destruct (decide P); [apply lookup_Values_Add_eq | done].
Qed.

Lemma lookup_guarded_Add_ne P `{Decision P} key key' value (p : Values) :
  key ≠ key' → guarded P (Values_Add key value) p !! key' = p !! key'.
Proof.
  intros Hne. unfold guarded.
  destruct (decide P); [by apply lookup_Values_Add_ne | done].
Qed.

Lemma common_only_lookup (p : Values) key :
  common_only p → key ∈ operation_keys → p !! key = None.
Proof.
  unfold common_only. rewrite Forall_forall. intros Hp Hkey. by apply Hp.
Qed.

(** Rewrites a lookup through a chain of [Set], [Add] and guarded steps down
    to the payload the chain started from. *)
Ltac lookup_steps :=
  repeat first
    [ rewrite lookup_guarded_Add_eq
    | rewrite lookup_guarded_Set_eq
    | rewrite lookup_Values_Add_eq
    | rewrite lookup_Values_Set_eq
    | rewrite lookup_guarded_Add_ne by done
    | rewrite lookup_guarded_Set_ne by done
    | rewrite lookup_Values_Add_ne by done
    | rewrite lookup_Values_Set_ne by done ].

Section Properties.

(** The properties hold for any response descriptor, any transport error,
    any common parameters and any [CommonParams.toPayLoad], written
    [toPayLoad] below. *)
Context {Response CommonParams TransportError : Type}.
Variable toPayLoad : CommonParams → Values.

Local Abbreviation DomainsService' :=
  (DomainsService Response CommonParams TransportError).
Local Abbreviation RecordsService' :=
  (RecordsService Response CommonParams TransportError).

(** *** The builders as chains of steps *)

Lemma DomainLogRequest_toPayLoad_steps (c : DomainLogRequest CommonParams) :
  DomainLogRequest_toPayLoad toPayLoad c
  = guarded (DomainLogRequest_Length c ≠ 0%Z)
      (Values_Set "length" (Itoa (DomainLogRequest_Length c)))
      (guarded (DomainLogRequest_Offset c ≠ 0%Z)
         (Values_Set "offset" (Itoa (DomainLogRequest_Offset c)))
         (if decide (DomainLogRequest_DomainId c ≠ "")
          then Values_Set "domain_id" (DomainLogRequest_DomainId c)
                 (toPayLoad (DomainLogRequest_CommonParams c))
          else Values_Set "domain" (DomainLogRequest_Domain c)
                 (toPayLoad (DomainLogRequest_CommonParams c)))).
Proof. reflexivity. Qed.

Lemma DomainListRequest_toPayLOad_steps
    (c : DomainListRequest CommonParams) :
  DomainListRequest_toPayLOad toPayLoad c
  = guarded (DomainListRequest_Keyword c ≠ "")
      (Values_Set "keyword" (DomainListRequest_Keyword c))
      (guarded (DomainListRequest_GroupId c ≠ "")
         (Values_Set "group_id" (DomainListRequest_GroupId c))
         (guarded (DomainListRequest_Length c ≠ "")
            (Values_Set "length" (DomainListRequest_Length c))
            (guarded (DomainListRequest_Offset c ≠ "")
               (Values_Set "offset" (DomainListRequest_Offset c))
               (guarded (DomainListRequest_Type c ≠ "")
                  (Values_Set "type" (DomainListRequest_Type c))
                  (toPayLoad (DomainListRequest_CommonParams c)))))).
Proof. reflexivity. Qed.

Lemma RecordListRequest_toPayLOad_steps
    (r : RecordListRequest CommonParams) :
  RecordListRequest_toPayLOad toPayLoad r
  = guarded (RecordListRequest_KeyWord r ≠ "")
      (Values_Add "keyword" (RecordListRequest_KeyWord r))
      (guarded (RecordListRequest_RecordLIneId r ≠ "")
         (Values_Add "record_line_id" (RecordListRequest_RecordLIneId r))
         (guarded (RecordListRequest_RecordLine r ≠ "")
            (Values_Add "record_line" (RecordListRequest_RecordLine r))
            (guarded (RecordListRequest_RecordType r ≠ "")
               (Values_Add "record_type" (RecordListRequest_RecordType r))
               (guarded (RecordListRequest_SubDomain r ≠ "")
                  (Values_Add "sub_domain" (RecordListRequest_SubDomain r))
                  (guarded (RecordListRequest_Length r ≠ "")
                     (Values_Add "length" (RecordListRequest_Length r))
                     (guarded (RecordListRequest_Offset r ≠ "")
                        (Values_Add "offset" (RecordListRequest_Offset r))
                        (guarded (RecordListRequest_Domain r ≠ "")
                           (Values_Add "domain" (RecordListRequest_Domain r))
                           (guarded (RecordListRequest_DomainId r ≠ "")
                              (Values_Add "domain_id"
                                 (RecordListRequest_DomainId r))
                              (toPayLoad
                                 (RecordListRequest_CommonParams r)))))))))).
Proof. reflexivity. Qed.

Lemma RecordsService_Create_payload_steps (s : RecordsService')
    (domain : string) (a : Record_) :
  RecordsService_Create_payload toPayLoad s domain a
  = record_attribute_steps a
      (guarded (Record_Name a ≠ "") (Values_Add "sub_domain" (Record_Name a))
         (Values_Add "domain_id" domain
            (toPayLoad (Client_CommonParams (RecordsService_client s))))).
Proof. reflexivity. Qed.

Lemma RecordsService_Update_payload_steps (s : RecordsService')
    (domain recordID : string) (a : Record_) :
  RecordsService_Update_payload toPayLoad s domain recordID a
  = record_attribute_steps a
      (guarded (Record_ID a = "" ∧ recordID ≠ "")
         (Values_Add "record_id" recordID)
         (guarded (Record_Name a ≠ "")
            (Values_Add "sub_domain" (Record_Name a))
            (guarded (Record_ID a ≠ "")
               (Values_Add "record_id" (Record_ID a))
               (Values_Add "domain_id" domain
                  (toPayLoad
                     (Client_CommonParams (RecordsService_client s))))))).
Proof. reflexivity. Qed.

Lemma RecordsService_Remark_payload_steps (s : RecordsService')
    (domain recordID : string) (a : Record_) :
  RecordsService_Remark_payload toPayLoad s domain recordID a
  = guarded (Record_Remark a ≠ "") (Values_Add "remark" (Record_Remark a))
      (guarded (Record_ID a = "" ∧ recordID ≠ "")
         (Values_Add "record_id" recordID)
         (guarded (Record_ID a ≠ "")
            (Values_Add "record_id" (Record_ID a))
            (Values_Add "domain_id" domain
               (toPayLoad
                  (Client_CommonParams (RecordsService_client s)))))).
Proof. reflexivity. Qed.


(** *** Optional fields *)

(** Splits [common_only] into one equation per key, then reads each key of
    the goal through the chain of steps. *)
Ltac fields H :=
  unfold common_only, operation_keys in H;
  rewrite !Forall_cons in H; destruct_and!;
  unfold emitted_iff_nonempty, emitted_iff_nonzero, record_attribute_steps;
  repeat split; lookup_steps;
  repeat match goal with
         | E : toPayLoad _ !! _ = None |- _ => rewrite ?E; clear E
         end;
  repeat case_decide; simpl; (congruence || tauto).

Lemma DomainListRequest_fields (c : DomainListRequest CommonParams) :
  common_only (toPayLoad (DomainListRequest_CommonParams c)) →
  let p := DomainListRequest_toPayLOad toPayLoad c in
  emitted_iff_nonempty p "type" (DomainListRequest_Type c)
  ∧ emitted_iff_nonempty p "offset" (DomainListRequest_Offset c)
  ∧ emitted_iff_nonempty p "length" (DomainListRequest_Length c)
  ∧ emitted_iff_nonempty p "group_id" (DomainListRequest_GroupId c)
  ∧ emitted_iff_nonempty p "keyword" (DomainListRequest_Keyword c).
Proof.
  intros Hc p. subst p. rewrite DomainListRequest_toPayLOad_steps.
  fields Hc.
Qed.

Lemma RecordListRequest_fields (r : RecordListRequest CommonParams) :
  common_only (toPayLoad (RecordListRequest_CommonParams r)) →
  let p := RecordListRequest_toPayLOad toPayLoad r in
  emitted_iff_nonempty p "domain_id" (RecordListRequest_DomainId r)
  ∧ emitted_iff_nonempty p "domain" (RecordListRequest_Domain r)
  ∧ emitted_iff_nonempty p "offset" (RecordListRequest_Offset r)
  ∧ emitted_iff_nonempty p "length" (RecordListRequest_Length r)
  ∧ emitted_iff_nonempty p "sub_domain" (RecordListRequest_SubDomain r)
  ∧ emitted_iff_nonempty p "record_type" (RecordListRequest_RecordType r)
  ∧ emitted_iff_nonempty p "record_line" (RecordListRequest_RecordLine r)
  ∧ emitted_iff_nonempty p "record_line_id"
      (RecordListRequest_RecordLIneId r)
  ∧ emitted_iff_nonempty p "keyword" (RecordListRequest_KeyWord r).
Proof.
  intros Hc p. subst p. rewrite RecordListRequest_toPayLOad_steps.
  fields Hc.
Qed.

(** [DomainLogRequest]: the two numbers are optional; of the two
    identifiers exactly one is sent, the name (empty or not) when the id
    is empty. *)
Lemma DomainLogRequest_fields (c : DomainLogRequest CommonParams) :
  common_only (toPayLoad (DomainLogRequest_CommonParams c)) →
  let p := DomainLogRequest_toPayLoad toPayLoad c in
  emitted_iff_nonzero p "offset" (DomainLogRequest_Offset c)
  ∧ emitted_iff_nonzero p "length" (DomainLogRequest_Length c)
  ∧ emitted_iff_nonempty p "domain_id" (DomainLogRequest_DomainId c)
  ∧ p !! "domain"
    = (if decide (DomainLogRequest_DomainId c = "")
       then Some [DomainLogRequest_Domain c] else None).
Proof.
  intros Hc p. subst p. rewrite DomainLogRequest_toPayLoad_steps.
  destruct (decide (DomainLogRequest_DomainId c ≠ "")); fields Hc.
Qed.

Lemma RecordsService_Create_fields (s : RecordsService')
    (domain : string) (a : Record_) :
  common_only (toPayLoad (Client_CommonParams (RecordsService_client s))) →
  let p := RecordsService_Create_payload toPayLoad s domain a in
  template_attributes_emitted p a
  ∧ p !! "domain_id" = Some [domain].
Proof.
  intros Hc p. subst p. rewrite RecordsService_Create_payload_steps.
  unfold template_attributes_emitted. fields Hc.
Qed.

Lemma RecordsService_Update_fields (s : RecordsService')
    (domain recordID : string) (a : Record_) :
  common_only (toPayLoad (Client_CommonParams (RecordsService_client s))) →
  let p := RecordsService_Update_payload toPayLoad s domain recordID a in
  template_attributes_emitted p a
  ∧ (Record_ID a ≠ "" → p !! "record_id" = Some [Record_ID a])
  ∧ p !! "domain_id" = Some [domain].
Proof.
  intros Hc p. subst p. rewrite RecordsService_Update_payload_steps.
  unfold template_attributes_emitted. fields Hc.
Qed.

Lemma RecordsService_Remark_fields (s : RecordsService')
    (domain recordID : string) (a : Record_) :
  common_only (toPayLoad (Client_CommonParams (RecordsService_client s))) →
  let p := RecordsService_Remark_payload toPayLoad s domain recordID a in
  emitted_iff_nonempty p "remark" (Record_Remark a)
  ∧ (Record_ID a ≠ "" → p !! "record_id" = Some [Record_ID a])
  ∧ p !! "domain_id" = Some [domain].
Proof.
  intros Hc p. subst p. rewrite RecordsService_Remark_payload_steps.
  fields Hc.
Qed.

(** [DomainsService.Create] writes its three keys without looking at the
    values, whatever the common parameters hold. *)
Lemma DomainsService_Create_fields (s : DomainsService') (a : Domain) :
  let p := DomainsService_Create_payload toPayLoad s a in
  p !! "domain" = Some [Domain_Name a]
  ∧ p !! "group_id" = Some [Domain_GroupID a]
  ∧ p !! "is_mark" = Some [Domain_IsMark a].
Proof.
  intros p. subst p. unfold DomainsService_Create_payload, Number_String.
  cbv zeta. repeat split; lookup_steps; reflexivity.
Qed.


(** The template fields an operation does not read are not sent: no
    [remark] and no [record_id] by [Create], no [remark] by [Update], none
    of the eight attributes by [Remark]; and [record_id] in [Update] and
    [Remark] holds the template's [ID] or else the [recordID] argument,
    whichever is not empty. *)
Lemma RecordsService_template_rest (s : RecordsService')
    (domain recordID : string) (a : Record_) :
  common_only (toPayLoad (Client_CommonParams (RecordsService_client s))) →
  let created := RecordsService_Create_payload toPayLoad s domain a in
  let updated :=
    RecordsService_Update_payload toPayLoad s domain recordID a in
  let remarked :=
    RecordsService_Remark_payload toPayLoad s domain recordID a in
  let id := if decide (Record_ID a ≠ "") then Record_ID a else recordID in
  created !! "remark" = None
  ∧ created !! "record_id" = None
  ∧ updated !! "remark" = None
  ∧ template_attributes_absent remarked
  ∧ emitted_iff_nonempty updated "record_id" id
  ∧ emitted_iff_nonempty remarked "record_id" id.
Proof.
  intros Hc created updated remarked id. subst created updated remarked id.
  rewrite RecordsService_Create_payload_steps.
  rewrite RecordsService_Update_payload_steps.
  rewrite RecordsService_Remark_payload_steps.
  unfold template_attributes_absent.
  destruct (decide (Record_ID a ≠ "")) as [Hid | Hid];
    destruct (decide (recordID = "")) as [Hrid | Hrid];
    fields Hc.
Qed.

(** C2 (amended): when the common parameters bring none of the operations'
    keys, a field that a builder tests is absent from the payload when
    empty and present with exactly its value otherwise.  These are: every
    field of [DomainListRequest] and of [RecordListRequest]; the [Offset]
    and [Length] of [DomainLogRequest] (tested against 0, sent in decimal)
    and its [DomainId]; in [RecordsService.Create] and [Update] the
    template's [Name], [Type], [Line], [LineID], [Value], [MX], [TTL] and
    [Status]; in [RecordsService.Remark] the template's [Remark].  In
    [Update] and [Remark], [record_id] holds the template's [ID] when that
    is not empty, else the [recordID] argument when that is not empty, and
    is absent otherwise.  A template field an operation does not read is
    not sent: [Create] sends no [remark] and no [record_id], [Update] no
    [remark], [Remark] none of the eight attributes.  What is written
    without a test is sent empty or not: [domain] by [DomainLogRequest],
    exactly when [DomainId] is empty; the [domain] argument of the three
    record operations, as [domain_id]; and [domain], [group_id] and
    [is_mark] by [DomainsService.Create]. *)
Theorem request_builders_optional_fields
    (Hcommon : ∀ cp, common_only (toPayLoad cp)) :
  (∀ c : DomainListRequest CommonParams,
     let p := DomainListRequest_toPayLOad toPayLoad c in
     emitted_iff_nonempty p "type" (DomainListRequest_Type c)
     ∧ emitted_iff_nonempty p "offset" (DomainListRequest_Offset c)
     ∧ emitted_iff_nonempty p "length" (DomainListRequest_Length c)
     ∧ emitted_iff_nonempty p "group_id" (DomainListRequest_GroupId c)
     ∧ emitted_iff_nonempty p "keyword" (DomainListRequest_Keyword c))
  ∧ (∀ r : RecordListRequest CommonParams,
       let p := RecordListRequest_toPayLOad toPayLoad r in
       emitted_iff_nonempty p "domain_id" (RecordListRequest_DomainId r)
       ∧ emitted_iff_nonempty p "domain" (RecordListRequest_Domain r)
       ∧ emitted_iff_nonempty p "offset" (RecordListRequest_Offset r)
       ∧ emitted_iff_nonempty p "length" (RecordListRequest_Length r)
       ∧ emitted_iff_nonempty p "sub_domain" (RecordListRequest_SubDomain r)
       ∧ emitted_iff_nonempty p "record_type"
           (RecordListRequest_RecordType r)
       ∧ emitted_iff_nonempty p "record_line"
           (RecordListRequest_RecordLine r)
       ∧ emitted_iff_nonempty p "record_line_id"
           (RecordListRequest_RecordLIneId r)
       ∧ emitted_iff_nonempty p "keyword" (RecordListRequest_KeyWord r))
  ∧ (∀ c : DomainLogRequest CommonParams,
       let p := DomainLogRequest_toPayLoad toPayLoad c in
       emitted_iff_nonzero p "offset" (DomainLogRequest_Offset c)
       ∧ emitted_iff_nonzero p "length" (DomainLogRequest_Length c)
       ∧ emitted_iff_nonempty p "domain_id" (DomainLogRequest_DomainId c)
       ∧ p !! "domain"
         = (if decide (DomainLogRequest_DomainId c = "")
            then Some [DomainLogRequest_Domain c] else None))
  ∧ (∀ (s : RecordsService') (domain recordID : string) (a : Record_),
       template_attributes_emitted
         (RecordsService_Create_payload toPayLoad s domain a) a
       ∧ template_attributes_emitted
           (RecordsService_Update_payload toPayLoad s domain recordID a) a
       ∧ emitted_iff_nonempty
           (RecordsService_Remark_payload toPayLoad s domain recordID a)
           "remark" (Record_Remark a)
       ∧ (Record_ID a ≠ "" →
          RecordsService_Update_payload toPayLoad s domain recordID a
            !! "record_id" = Some [Record_ID a]
          ∧ RecordsService_Remark_payload toPayLoad s domain recordID a
              !! "record_id" = Some [Record_ID a])
       ∧ RecordsService_Create_payload toPayLoad s domain a !! "domain_id"
         = Some [domain]
       ∧ RecordsService_Update_payload toPayLoad s domain recordID a
           !! "domain_id" = Some [domain]
       ∧ RecordsService_Remark_payload toPayLoad s domain recordID a
           !! "domain_id" = Some [domain])
  ∧ (∀ (s : DomainsService') (a : Domain),
       let p := DomainsService_Create_payload toPayLoad s a in
       p !! "domain" = Some [Domain_Name a]
       ∧ p !! "group_id" = Some [Domain_GroupID a]
       ∧ p !! "is_mark" = Some [Domain_IsMark a])
  ∧ (∀ (s : RecordsService') (domain recordID : string) (a : Record_),
       let created := RecordsService_Create_payload toPayLoad s domain a in
       let updated :=
         RecordsService_Update_payload toPayLoad s domain recordID a in
       let remarked :=
         RecordsService_Remark_payload toPayLoad s domain recordID a in
       let id :=
         if decide (Record_ID a ≠ "") then Record_ID a else recordID in
       created !! "remark" = None
       ∧ created !! "record_id" = None
       ∧ updated !! "remark" = None
       ∧ template_attributes_absent remarked
       ∧ emitted_iff_nonempty updated "record_id" id
       ∧ emitted_iff_nonempty remarked "record_id" id).
Proof.
  split_and!.
  - intros c. by apply DomainListRequest_fields.
  - intros r. by apply RecordListRequest_fields.
  - intros c. by apply DomainLogRequest_fields.
  - intros s domain recordID a.
    pose proof (RecordsService_Create_fields s domain a (Hcommon _))
      as (HC & HCdom).
    pose proof
      (RecordsService_Update_fields s domain recordID a (Hcommon _))
      as (HU & HUid & HUdom).
    pose proof
      (RecordsService_Remark_fields s domain recordID a (Hcommon _))
      as (HR & HRid & HRdom).
    split_and!;
      [exact HC | exact HU | exact HR | | exact HCdom | exact HUdom
      | exact HRdom].
    intros Hid. split; [by apply HUid | by apply HRid].
  - intros s a. apply DomainsService_Create_fields.
  - intros s domain recordID a. by apply RecordsService_template_rest.
Qed.

(** *** Identifier pairs *)

(** C3 (amended): when the common parameters bring none of the operations'
    keys, [DomainLogRequest.toPayLoad] sends exactly one of the two
    identifiers: [domain_id] alone when [DomainId] is not empty, whatever
    [Domain] holds, and [domain] alone when [DomainId] is empty.
    [RecordListRequest.toPayLOad] guards its two identifiers separately:
    each is sent exactly when it is not empty, so both keys are sent when
    both fields are set. *)
Theorem identifier_pairs
    (Hcommon : ∀ cp, common_only (toPayLoad cp)) :
  (∀ c : DomainLogRequest CommonParams,
     let p := DomainLogRequest_toPayLoad toPayLoad c in
     (DomainLogRequest_DomainId c ≠ "" →
      p !! "domain_id" = Some [DomainLogRequest_DomainId c]
      ∧ p !! "domain" = None)
     ∧ (DomainLogRequest_DomainId c = "" →
        p !! "domain_id" = None
        ∧ p !! "domain" = Some [DomainLogRequest_Domain c]))
  ∧ (∀ r : RecordListRequest CommonParams,
       let p := RecordListRequest_toPayLOad toPayLoad r in
       emitted_iff_nonempty p "domain_id" (RecordListRequest_DomainId r)
       ∧ emitted_iff_nonempty p "domain" (RecordListRequest_Domain r)).
Proof.
  split.
  - intros c p.
    destruct (DomainLogRequest_fields c (Hcommon _)) as (_ & _ & Hid & Hname).
    fold p in Hid, Hname. unfold emitted_iff_nonempty in Hid.
    split; intros Hc; rewrite Hid, Hname; by repeat case_decide.
  - intros r p.
    destruct (RecordListRequest_fields r (Hcommon _)) as (Hid & Hname & _).
    by split.
Qed.

(** *** The record id of [Update] and [Remark] *)

(** C5: [RecordsService.Update] and [RecordsService.Remark] add at most
    one value to [record_id], after whatever the common parameters hold
    there: the template's [ID] when that is not empty, else the [recordID]
    argument when that is not empty, and nothing when both are empty. *)
Theorem record_id_precedence (s : RecordsService')
    (domain recordID : string) (a : Record_) :
  let common :=
    toPayLoad (Client_CommonParams (RecordsService_client s)) in
  let chosen :=
    if decide (Record_ID a ≠ "") then Some (Record_ID a)
    else if decide (recordID ≠ "") then Some recordID
    else None in
  RecordsService_Update_payload toPayLoad s domain recordID a !! "record_id"
    = appended (common !! "record_id") chosen
  ∧ RecordsService_Remark_payload toPayLoad s domain recordID a
      !! "record_id" = appended (common !! "record_id") chosen.
Proof.
  rewrite RecordsService_Update_payload_steps.
  rewrite RecordsService_Remark_payload_steps.
  unfold record_attribute_steps, appended.
  split; lookup_steps; repeat case_decide; simpl; (congruence || tauto).
Qed.

(** *** Results of the operations *)

(** Runs an operation on the outcome [H] of its call. *)
Ltac on_post H :=
  revert H;
  unfold DomainsService_List, DomainsService_List_post,
    DomainsService_Create, DomainsService_Create_post,
    DomainsService_Get, DomainsService_Get_post,
    DomainsService_Delete, DomainsService_Delete_post,
    DomainsService_Log, DomainsService_Log_post,
    RecordsService_List, RecordsService_List_post,
    RecordsService_Create, RecordsService_Create_post,
    RecordsService_Get, RecordsService_Get_post,
    RecordsService_Update, RecordsService_Update_post,
    RecordsService_Remark, RecordsService_Remark_post,
    RecordsService_Delete, RecordsService_Delete_post, fmt_Errorf;
  cbv zeta; intros ->; simpl;
  repeat case_match; repeat case_decide; simpl;
  solve [congruence | contradiction].

(** C1: [DomainsService.Create], [Get] and [Delete] do not look at the
    status block.  When the call reports no error they return the decoded
    domain (for [Delete], the response descriptor) and no error, whatever
    the envelope's status is; and the error they return is always the one
    the call reported, so they fail only when the transport does. *)
Theorem domain_create_get_delete_skip_status (s : DomainsService') :
  (∀ a w res,
     DomainsService_Create_post toPayLoad s a = (w, res, None) →
     DomainsService_Create toPayLoad s a
     = (domainWrapper_Domain w, res, None))
  ∧ (∀ id w res,
       DomainsService_Get_post toPayLoad s id = (w, res, None) →
       DomainsService_Get toPayLoad s id
       = (domainWrapper_Domain w, res, None))
  ∧ (∀ id w res,
       DomainsService_Delete_post toPayLoad s id = (w, res, None) →
       DomainsService_Delete toPayLoad s id = (res, None))
  ∧ (∀ a, (DomainsService_Create toPayLoad s a).2
          = (DomainsService_Create_post toPayLoad s a).2)
  ∧ (∀ id, (DomainsService_Get toPayLoad s id).2
           = (DomainsService_Get_post toPayLoad s id).2)
  ∧ (∀ id, (DomainsService_Delete toPayLoad s id).2
           = (DomainsService_Delete_post toPayLoad s id).2).
Proof.
  split_and!.
  - intros a w res H. on_post H.
  - intros id w res H. on_post H.
  - intros id w res H. on_post H.
  - intros a.
    destruct (DomainsService_Create_post toPayLoad s a) as [[w res] err]
      eqn:H.
    on_post H.
  - intros id.
    destruct (DomainsService_Get_post toPayLoad s id) as [[w res] err]
      eqn:H.
    on_post H.
  - intros id.
    destruct (DomainsService_Delete_post toPayLoad s id) as [[w res] err]
      eqn:H.
    on_post H.
Qed.

(** C4: in the eight operations that check the status, a call that
    reports no error but whose envelope has a status code other than ["1"]
    gives the error with the text ["could not get domains: "] followed by
    the status message, in [DomainsService.List] and in all six operations
    of [RecordsService]; [DomainsService.Log] says
    ["could not get domain logs: "] instead. *)
Theorem status_failure_error (ds : DomainsService') (rs : RecordsService') :
  (∀ request w res,
     DomainsService_List_post toPayLoad ds request = (w, res, None) →
     Status_Code (domainListWrapper_Status w) ≠ "1" →
     (DomainsService_List toPayLoad ds request).2
     = Some (errorString
               ("could not get domains: "
                +:+ Status_Message (domainListWrapper_Status w))))
  ∧ (∀ request w res,
       DomainsService_Log_post toPayLoad ds request = (w, res, None) →
       Status_Code (domainLogWrapper_Status w) ≠ "1" →
       (DomainsService_Log toPayLoad ds request).2
       = Some (errorString
                 ("could not get domain logs: "
                  +:+ Status_Message (domainLogWrapper_Status w))))
  ∧ (∀ request w res,
       RecordsService_List_post toPayLoad rs request = (w, res, None) →
       Status_Code (recordsWrapper_Status w) ≠ "1" →
       (RecordsService_List toPayLoad rs request).2
       = Some (errorString
                 ("could not get domains: "
                  +:+ Status_Message (recordsWrapper_Status w))))
  ∧ (∀ domain a w res,
       RecordsService_Create_post toPayLoad rs domain a = (w, res, None) →
       Status_Code (recordWrapper_Status w) ≠ "1" →
       (RecordsService_Create toPayLoad rs domain a).2
       = Some (errorString
                 ("could not get domains: "
                  +:+ Status_Message (recordWrapper_Status w))))
  ∧ (∀ domain recordID w res,
       RecordsService_Get_post toPayLoad rs domain recordID
       = (w, res, None) →
       Status_Code (recordWrapper_Status w) ≠ "1" →
       (RecordsService_Get toPayLoad rs domain recordID).2
       = Some (errorString
                 ("could not get domains: "
                  +:+ Status_Message (recordWrapper_Status w))))
  ∧ (∀ domain recordID a w res,
       RecordsService_Update_post toPayLoad rs domain recordID a
       = (w, res, None) →
       Status_Code (recordWrapper_Status w) ≠ "1" →
       (RecordsService_Update toPayLoad rs domain recordID a).2
       = Some (errorString
                 ("could not get domains: "
                  +:+ Status_Message (recordWrapper_Status w))))
  ∧ (∀ domain recordID a w res,
       RecordsService_Remark_post toPayLoad rs domain recordID a
       = (w, res, None) →
       Status_Code (recordWrapper_Status w) ≠ "1" →
       (RecordsService_Remark toPayLoad rs domain recordID a).2
       = Some (errorString
                 ("could not get domains: "
                  +:+ Status_Message (recordWrapper_Status w))))
  ∧ (∀ domain recordID w res,
       RecordsService_Delete_post toPayLoad rs domain recordID
       = (w, res, None) →
       Status_Code (recordWrapper_Status w) ≠ "1" →
       (RecordsService_Delete toPayLoad rs domain recordID).2
       = Some (errorString
                 ("could not get domains: "
                  +:+ Status_Message (recordWrapper_Status w)))).
Proof. split_and!; intros; on_post H. Qed.

(** C6: when the call of [RecordsService.Update] or [Remark] reports no
    error but the status code is not ["1"], the record decoded into the
    envelope is returned together with the error, not the zero record. *)
Theorem update_remark_partial_record (s : RecordsService') :
  (∀ domain recordID a w res,
     RecordsService_Update_post toPayLoad s domain recordID a
     = (w, res, None) →
     Status_Code (recordWrapper_Status w) ≠ "1" →
     RecordsService_Update toPayLoad s domain recordID a
     = (recordWrapper_Record w, None,
        Some (errorString
                ("could not get domains: "
                 +:+ Status_Message (recordWrapper_Status w)))))
  ∧ (∀ domain recordID a w res,
       RecordsService_Remark_post toPayLoad s domain recordID a
       = (w, res, None) →
       Status_Code (recordWrapper_Status w) ≠ "1" →
       RecordsService_Remark toPayLoad s domain recordID a
       = (recordWrapper_Record w, None,
          Some (errorString
                  ("could not get domains: "
                   +:+ Status_Message (recordWrapper_Status w))))).
Proof. split_and!; intros; on_post H. Qed.

(** C9: [RecordsService.Create] and [Get] do the same: with no error from
    the call and a status code other than ["1"], they return the record
    decoded into the envelope together with the error. *)
Theorem create_get_partial_record (s : RecordsService') :
  (∀ domain a w res,
     RecordsService_Create_post toPayLoad s domain a = (w, res, None) →
     Status_Code (recordWrapper_Status w) ≠ "1" →
     RecordsService_Create toPayLoad s domain a
     = (recordWrapper_Record w, None,
        Some (errorString
                ("could not get domains: "
                 +:+ Status_Message (recordWrapper_Status w)))))
  ∧ (∀ domain recordID w res,
       RecordsService_Get_post toPayLoad s domain recordID
       = (w, res, None) →
       Status_Code (recordWrapper_Status w) ≠ "1" →
       RecordsService_Get toPayLoad s domain recordID
       = (recordWrapper_Record w, None,
          Some (errorString
                  ("could not get domains: "
                   +:+ Status_Message (recordWrapper_Status w))))).
Proof. split_and!; intros; on_post H. Qed.

(** C7: when the call reports an error, every operation returns that very
    error and the descriptor that came with it, together with the nil
    slice or the zero entity; the envelope [w], and so its status, has no
    part in the result. *)
Theorem transport_error_returned
    (ds : DomainsService') (rs : RecordsService') :
  (∀ request w res e,
     DomainsService_List_post toPayLoad ds request = (w, res, Some e) →
     DomainsService_List toPayLoad ds request = (None, res, Some e))
  ∧ (∀ a w res e,
       DomainsService_Create_post toPayLoad ds a = (w, res, Some e) →
       DomainsService_Create toPayLoad ds a = (Domain_zero, res, Some e))
  ∧ (∀ id w res e,
       DomainsService_Get_post toPayLoad ds id = (w, res, Some e) →
       DomainsService_Get toPayLoad ds id = (Domain_zero, res, Some e))
  ∧ (∀ id w res e,
       DomainsService_Delete_post toPayLoad ds id = (w, res, Some e) →
       DomainsService_Delete toPayLoad ds id = (res, Some e))
  ∧ (∀ request w res e,
       DomainsService_Log_post toPayLoad ds request = (w, res, Some e) →
       DomainsService_Log toPayLoad ds request = (None, Some e))
  ∧ (∀ request w res e,
       RecordsService_List_post toPayLoad rs request = (w, res, Some e) →
       RecordsService_List toPayLoad rs request = (None, res, Some e))
  ∧ (∀ domain a w res e,
       RecordsService_Create_post toPayLoad rs domain a
       = (w, res, Some e) →
       RecordsService_Create toPayLoad rs domain a
       = (Record_zero, res, Some e))
  ∧ (∀ domain recordID w res e,
       RecordsService_Get_post toPayLoad rs domain recordID
       = (w, res, Some e) →
       RecordsService_Get toPayLoad rs domain recordID
       = (Record_zero, res, Some e))
  ∧ (∀ domain recordID a w res e,
       RecordsService_Update_post toPayLoad rs domain recordID a
       = (w, res, Some e) →
       RecordsService_Update toPayLoad rs domain recordID a
       = (Record_zero, res, Some e))
  ∧ (∀ domain recordID a w res e,
       RecordsService_Remark_post toPayLoad rs domain recordID a
       = (w, res, Some e) →
       RecordsService_Remark toPayLoad rs domain recordID a
       = (Record_zero, res, Some e))
  ∧ (∀ domain recordID w res e,
       RecordsService_Delete_post toPayLoad rs domain recordID
       = (w, res, Some e) →
       RecordsService_Delete toPayLoad rs domain recordID = (res, Some e)).
Proof. split_and!; intros; on_post H. Qed.

(** C8: when the call reports no error and the status code is ["1"],
    every operation returns the payload field of its envelope as it is
    (the domains, the domain, the log lines, the records, the record; the
    two [Delete] have none), the descriptor of the call where the
    operation returns one, and no error. *)
Theorem success_returns_payload
    (ds : DomainsService') (rs : RecordsService') :
  (∀ request w res,
     DomainsService_List_post toPayLoad ds request = (w, res, None) →
     Status_Code (domainListWrapper_Status w) = "1" →
     DomainsService_List toPayLoad ds request
     = (domainListWrapper_Domains w, res, None))
  ∧ (∀ a w res,
       DomainsService_Create_post toPayLoad ds a = (w, res, None) →
       Status_Code (domainWrapper_Status w) = "1" →
       DomainsService_Create toPayLoad ds a
       = (domainWrapper_Domain w, res, None))
  ∧ (∀ id w res,
       DomainsService_Get_post toPayLoad ds id = (w, res, None) →
       Status_Code (domainWrapper_Status w) = "1" →
       DomainsService_Get toPayLoad ds id
       = (domainWrapper_Domain w, res, None))
  ∧ (∀ id w res,
       DomainsService_Delete_post toPayLoad ds id = (w, res, None) →
       Status_Code (domainWrapper_Status w) = "1" →
       DomainsService_Delete toPayLoad ds id = (res, None))
  ∧ (∀ request w res,
       DomainsService_Log_post toPayLoad ds request = (w, res, None) →
       Status_Code (domainLogWrapper_Status w) = "1" →
       DomainsService_Log toPayLoad ds request
       = (domainLogWrapper_Log w, None))
  ∧ (∀ request w res,
       RecordsService_List_post toPayLoad rs request = (w, res, None) →
       Status_Code (recordsWrapper_Status w) = "1" →
       RecordsService_List toPayLoad rs request
       = (recordsWrapper_Records w, res, None))
  ∧ (∀ domain a w res,
       RecordsService_Create_post toPayLoad rs domain a = (w, res, None) →
       Status_Code (recordWrapper_Status w) = "1" →
       RecordsService_Create toPayLoad rs domain a
       = (recordWrapper_Record w, res, None))
  ∧ (∀ domain recordID w res,
       RecordsService_Get_post toPayLoad rs domain recordID
       = (w, res, None) →
       Status_Code (recordWrapper_Status w) = "1" →
       RecordsService_Get toPayLoad rs domain recordID
       = (recordWrapper_Record w, res, None))
  ∧ (∀ domain recordID a w res,
       RecordsService_Update_post toPayLoad rs domain recordID a
       = (w, res, None) →
       Status_Code (recordWrapper_Status w) = "1" →
       RecordsService_Update toPayLoad rs domain recordID a
       = (recordWrapper_Record w, res, None))
  ∧ (∀ domain recordID a w res,
       RecordsService_Remark_post toPayLoad rs domain recordID a
       = (w, res, None) →
       Status_Code (recordWrapper_Status w) = "1" →
       RecordsService_Remark toPayLoad rs domain recordID a
       = (recordWrapper_Record w, res, None))
  ∧ (∀ domain recordID w res,
       RecordsService_Delete_post toPayLoad rs domain recordID
       = (w, res, None) →
       Status_Code (recordWrapper_Status w) = "1" →
       RecordsService_Delete toPayLoad rs domain recordID = (res, None)).
Proof. split_and!; intros; on_post H. Qed.

(** C10: [DomainsService.List] and the six operations of [RecordsService]
    return the nil descriptor when the call reported no error and the
    status code is not ["1"], dropping the descriptor of the call; on
    success and next to a transport error they return the call's
    descriptor. *)
Theorem response_descriptor_dropped_on_status_failure
    (ds : DomainsService') (rs : RecordsService') :
  (∀ request w res err,
     DomainsService_List_post toPayLoad ds request = (w, res, err) →
     (DomainsService_List toPayLoad ds request).1.2
     = descriptor_returned (domainListWrapper_Status w) res err)
  ∧ (∀ request w res err,
       RecordsService_List_post toPayLoad rs request = (w, res, err) →
       (RecordsService_List toPayLoad rs request).1.2
       = descriptor_returned (recordsWrapper_Status w) res err)
  ∧ (∀ domain a w res err,
       RecordsService_Create_post toPayLoad rs domain a = (w, res, err) →
       (RecordsService_Create toPayLoad rs domain a).1.2
       = descriptor_returned (recordWrapper_Status w) res err)
  ∧ (∀ domain recordID w res err,
       RecordsService_Get_post toPayLoad rs domain recordID
       = (w, res, err) →
       (RecordsService_Get toPayLoad rs domain recordID).1.2
       = descriptor_returned (recordWrapper_Status w) res err)
  ∧ (∀ domain recordID a w res err,
       RecordsService_Update_post toPayLoad rs domain recordID a
       = (w, res, err) →
       (RecordsService_Update toPayLoad rs domain recordID a).1.2
       = descriptor_returned (recordWrapper_Status w) res err)
  ∧ (∀ domain recordID a w res err,
       RecordsService_Remark_post toPayLoad rs domain recordID a
       = (w, res, err) →
       (RecordsService_Remark toPayLoad rs domain recordID a).1.2
       = descriptor_returned (recordWrapper_Status w) res err)
  ∧ (∀ domain recordID w res err,
       RecordsService_Delete_post toPayLoad rs domain recordID
       = (w, res, err) →
       (RecordsService_Delete toPayLoad rs domain recordID).1
       = descriptor_returned (recordWrapper_Status w) res err).
Proof. split_and!; intros; unfold descriptor_returned; on_post H. Qed.

End Properties.

Lemma demo_common_only (token : string) : common_only (demo_toPayLoad token).
Proof. unfold common_only, operation_keys. repeat constructor. Qed.

(** C2, an instance: a domain list request with only [Type] and [Length]
    set sends those two and not the empty [Offset]; a log request with
    [Offset] 0 and [Length] 50 sends [length=50] alone. *)
Lemma request_builders_optional_fields_witness :
  (∀ token, common_only (demo_toPayLoad token))
  ∧ (let p := DomainListRequest_toPayLOad demo_toPayLoad demo_list_request in
     p !! "type" = Some ["mine"]
     ∧ p !! "offset" = None
     ∧ p !! "length" = Some ["20"])
  ∧ (let p := DomainLogRequest_toPayLoad demo_toPayLoad demo_log_request in
     p !! "offset" = None ∧ p !! "length" = Some ["50"]).
Proof.
  split; [exact demo_common_only |].
  destruct (request_builders_optional_fields (Response := string)
              (TransportError := string) demo_toPayLoad demo_common_only)
    as (Hlist & _ & Hlog & _).
  destruct (Hlist demo_list_request) as (Htype & Hoffset & Hlength & _).
  destruct (Hlog demo_log_request) as (Hoff & Hlen & _).
  split.
  - split_and!; [exact Htype | exact Hoffset | exact Hlength].
  - split; [exact Hoff | exact Hlen].
Defined.

(** C2, as stated, fails: with every field of a log request left empty the
    payload still has the key [domain], and [DomainsService.Create] with the
    zero [Domain] still sends [domain], [group_id] and [is_mark]. *)
Lemma request_builders_empty_field_emitted :
  common_only (demo_toPayLoad "token")
  ∧ DomainLogRequest_Domain demo_log_request_empty = ""
  ∧ DomainLogRequest_toPayLoad demo_toPayLoad demo_log_request_empty
      !! "domain" = Some [""]
  ∧ Domain_IsMark Domain_zero = ""
  ∧ DomainsService_Create_payload demo_toPayLoad
      (demo_domains status_ok None) Domain_zero !! "is_mark" = Some [""]
  ∧ ¬ emitted_iff_nonempty
        (DomainLogRequest_toPayLoad demo_toPayLoad demo_log_request_empty)
        "domain" (DomainLogRequest_Domain demo_log_request_empty).
Proof.
  split_and!; try reflexivity; [apply demo_common_only | ].
  unfold emitted_iff_nonempty. vm_compute. discriminate.
Qed.

(** C3, an instance: the log request with both identifiers set sends the id
    and not the name. *)
Lemma identifier_pairs_witness :
  (∀ token, common_only (demo_toPayLoad token))
  ∧ (let p := DomainLogRequest_toPayLoad demo_toPayLoad demo_log_request in
     p !! "domain_id" = Some ["12345"] ∧ p !! "domain" = None).
Proof.
  split; [exact demo_common_only |].
  destruct (identifier_pairs demo_toPayLoad demo_common_only) as (Hlog & _).
  destruct (Hlog demo_log_request) as (Hid & _).
  apply Hid. discriminate.
Defined.

(** C3, as stated, fails for [RecordListRequest]: with [DomainId] and
    [Domain] both set, both keys are in the payload. *)
Lemma record_list_emits_both_identifiers :
  common_only (demo_toPayLoad "token")
  ∧ RecordListRequest_DomainId demo_record_list_request_both ≠ ""
  ∧ (let p :=
       RecordListRequest_toPayLOad demo_toPayLoad
         demo_record_list_request_both in
     p !! "domain_id" = Some ["12345"]
     ∧ p !! "domain" = Some ["example.com"]
     ∧ ¬ (RecordListRequest_DomainId demo_record_list_request_both ≠ "" →
          p !! "domain" = None)).
Proof.
  split_and!; [apply demo_common_only | discriminate | ].
  intros p. split_and!; [reflexivity | reflexivity | ].
  intros H. discriminate H. discriminate.
Qed.

(** C5, the spec's scenario: [Update] with [Record{ID:"", Remark:"x"}] and
    [recordID = "99"] sends [record_id=99], and so does [Remark]; a template
    with its own [ID] overrides the argument. *)
Example record_id_scenario :
  RecordsService_Update_payload demo_toPayLoad
    (demo_records status_ok None) "12345" "99" demo_template
    !! "record_id" = Some ["99"]
  ∧ RecordsService_Remark_payload demo_toPayLoad
      (demo_records status_ok None) "12345" "99" demo_template
      !! "record_id" = Some ["99"]
  ∧ RecordsService_Update_payload demo_toPayLoad
      (demo_records status_ok None) "12345" "7" demo_record
      !! "record_id" = Some ["99"].
Proof. split_and!; reflexivity. Qed.

(** Instantiates a conjunct [H] of a theorem on a concrete call: the
    hypotheses of [H] are settled by evaluating the call. *)
Ltac on_demo H :=
  eapply eq_trans;
  [ eapply H; first [reflexivity | vm_compute; discriminate]
  | reflexivity ].

(** C1, an instance: answered with the status ["6"], [Create] and [Get]
    still return the decoded domain and [Delete] the descriptor, with no
    error. *)
Lemma domain_create_get_delete_skip_status_witness :
  let ds := demo_domains status_failed None in
  Status_Code status_failed ≠ "1"
  ∧ DomainsService_Create demo_toPayLoad ds demo_domain
    = (demo_domain, Some "200 OK", None)
  ∧ DomainsService_Get demo_toPayLoad ds 42 = (demo_domain, Some "200 OK", None)
  ∧ DomainsService_Delete demo_toPayLoad ds 42 = (Some "200 OK", None).
Proof.
  intros ds.
  destruct (domain_create_get_delete_skip_status demo_toPayLoad ds)
    as (HCreate & HGet & HDelete & _).
  split_and!;
    [discriminate | on_demo HCreate | on_demo HGet | on_demo HDelete].
Defined.

(** C4, an instance: answered with the status ["6"] and the message
    ["Invalid domain id"], the eight operations fail with that message
    behind their prefix. *)
Lemma status_failure_error_witness :
  let ds := demo_domains status_failed None in
  let rs := demo_records status_failed None in
  Status_Code status_failed ≠ "1"
  ∧ (DomainsService_List demo_toPayLoad ds demo_list_request).2
    = Some (errorString "could not get domains: Invalid domain id")
  ∧ (DomainsService_Log demo_toPayLoad ds demo_log_request).2
    = Some (errorString "could not get domain logs: Invalid domain id")
  ∧ (RecordsService_List demo_toPayLoad rs demo_record_list_request).2
    = Some (errorString "could not get domains: Invalid domain id")
  ∧ (RecordsService_Create demo_toPayLoad rs "12345" demo_record).2
    = Some (errorString "could not get domains: Invalid domain id")
  ∧ (RecordsService_Get demo_toPayLoad rs "12345" "99").2
    = Some (errorString "could not get domains: Invalid domain id")
  ∧ (RecordsService_Update demo_toPayLoad rs "12345" "99" demo_template).2
    = Some (errorString "could not get domains: Invalid domain id")
  ∧ (RecordsService_Remark demo_toPayLoad rs "12345" "99" demo_template).2
    = Some (errorString "could not get domains: Invalid domain id")
  ∧ (RecordsService_Delete demo_toPayLoad rs "12345" "99").2
    = Some (errorString "could not get domains: Invalid domain id").
Proof.
  intros ds rs.
  destruct (status_failure_error demo_toPayLoad ds rs)
    as (H1 & H2 & H3 & H4 & H5 & H6 & H7 & H8).
  split_and!;
    [ discriminate | on_demo H1 | on_demo H2 | on_demo H3 | on_demo H4
    | on_demo H5 | on_demo H6 | on_demo H7 | on_demo H8 ].
Defined.

(** C6, an instance: [Update] and [Remark], answered with the status ["6"],
    return the decoded record next to the error. *)
Lemma update_remark_partial_record_witness :
  let rs := demo_records status_failed None in
  Status_Code status_failed ≠ "1"
  ∧ demo_record ≠ Record_zero
  ∧ RecordsService_Update demo_toPayLoad rs "12345" "99" demo_template
    = (demo_record, None,
       Some (errorString "could not get domains: Invalid domain id"))
  ∧ RecordsService_Remark demo_toPayLoad rs "12345" "99" demo_template
    = (demo_record, None,
       Some (errorString "could not get domains: Invalid domain id")).
Proof.
  intros rs.
  destruct (update_remark_partial_record demo_toPayLoad rs) as (H1 & H2).
  split_and!; [discriminate | discriminate | on_demo H1 | on_demo H2].
Defined.

(** C9, an instance: so do [Create] and [Get]. *)
Lemma create_get_partial_record_witness :
  let rs := demo_records status_failed None in
  Status_Code status_failed ≠ "1"
  ∧ demo_record ≠ Record_zero
  ∧ RecordsService_Create demo_toPayLoad rs "12345" demo_template
    = (demo_record, None,
       Some (errorString "could not get domains: Invalid domain id"))
  ∧ RecordsService_Get demo_toPayLoad rs "12345" "99"
    = (demo_record, None,
       Some (errorString "could not get domains: Invalid domain id")).
Proof.
  intros rs.
  destruct (create_get_partial_record demo_toPayLoad rs) as (H1 & H2).
  split_and!; [discriminate | discriminate | on_demo H1 | on_demo H2].
Defined.

(** C7, an instance: a refused connection comes back from every operation
    as it is, with the nil slice or the zero entity, although the envelope
    the transport left behind is filled in. *)
Lemma transport_error_returned_witness :
  let e := transportError "connection refused" in
  let ds := demo_domains status_failed (Some e) in
  let rs := demo_records status_failed (Some e) in
  DomainsService_List demo_toPayLoad ds demo_list_request
  = (None, Some "200 OK", Some e)
  ∧ DomainsService_Create demo_toPayLoad ds demo_domain
    = (Domain_zero, Some "200 OK", Some e)
  ∧ DomainsService_Get demo_toPayLoad ds 42
    = (Domain_zero, Some "200 OK", Some e)
  ∧ DomainsService_Delete demo_toPayLoad ds 42 = (Some "200 OK", Some e)
  ∧ DomainsService_Log demo_toPayLoad ds demo_log_request = (None, Some e)
  ∧ RecordsService_List demo_toPayLoad rs demo_record_list_request
    = (None, Some "200 OK", Some e)
  ∧ RecordsService_Create demo_toPayLoad rs "12345" demo_template
    = (Record_zero, Some "200 OK", Some e)
  ∧ RecordsService_Get demo_toPayLoad rs "12345" "99"
    = (Record_zero, Some "200 OK", Some e)
  ∧ RecordsService_Update demo_toPayLoad rs "12345" "99" demo_template
    = (Record_zero, Some "200 OK", Some e)
  ∧ RecordsService_Remark demo_toPayLoad rs "12345" "99" demo_template
    = (Record_zero, Some "200 OK", Some e)
  ∧ RecordsService_Delete demo_toPayLoad rs "12345" "99"
    = (Some "200 OK", Some e).
Proof.
  intros e ds rs.
  destruct (transport_error_returned demo_toPayLoad ds rs)
    as (H1 & H2 & H3 & H4 & H5 & H6 & H7 & H8 & H9 & H10 & H11).
  split_and!;
    [ on_demo H1 | on_demo H2 | on_demo H3 | on_demo H4 | on_demo H5
    | on_demo H6 | on_demo H7 | on_demo H8 | on_demo H9 | on_demo H10
    | on_demo H11 ].
Defined.

(** C8, an instance: answered with the status ["1"], every operation
    returns what the envelope holds. *)
Lemma success_returns_payload_witness :
  let ds := demo_domains status_ok None in
  let rs := demo_records status_ok None in
  Status_Code status_ok = "1"
  ∧ DomainsService_List demo_toPayLoad ds demo_list_request
    = (Some [demo_domain], Some "200 OK", None)
  ∧ DomainsService_Create demo_toPayLoad ds demo_domain
    = (demo_domain, Some "200 OK", None)
  ∧ DomainsService_Get demo_toPayLoad ds 42
    = (demo_domain, Some "200 OK", None)
  ∧ DomainsService_Delete demo_toPayLoad ds 42 = (Some "200 OK", None)
  ∧ DomainsService_Log demo_toPayLoad ds demo_log_request
    = (Some ["created"; "updated"], None)
  ∧ RecordsService_List demo_toPayLoad rs demo_record_list_request
    = (Some [demo_record], Some "200 OK", None)
  ∧ RecordsService_Create demo_toPayLoad rs "12345" demo_template
    = (demo_record, Some "200 OK", None)
  ∧ RecordsService_Get demo_toPayLoad rs "12345" "99"
    = (demo_record, Some "200 OK", None)
  ∧ RecordsService_Update demo_toPayLoad rs "12345" "99" demo_template
    = (demo_record, Some "200 OK", None)
  ∧ RecordsService_Remark demo_toPayLoad rs "12345" "99" demo_template
    = (demo_record, Some "200 OK", None)
  ∧ RecordsService_Delete demo_toPayLoad rs "12345" "99"
    = (Some "200 OK", None).
Proof.
  intros ds rs.
  destruct (success_returns_payload demo_toPayLoad ds rs)
    as (H1 & H2 & H3 & H4 & H5 & H6 & H7 & H8 & H9 & H10 & H11).
  split_and!;
    [ reflexivity | on_demo H1 | on_demo H2 | on_demo H3 | on_demo H4
    | on_demo H5 | on_demo H6 | on_demo H7 | on_demo H8 | on_demo H9
    | on_demo H10 | on_demo H11 ].
Defined.

(** C10, an instance: answered with the status ["6"], the seven operations
    return no descriptor, although the call had one; answered with the
    status ["1"], [List] passes the descriptor on. *)
Lemma response_descriptor_dropped_on_status_failure_witness :
  let ds := demo_domains status_failed None in
  let rs := demo_records status_failed None in
  (DomainsService_List_post demo_toPayLoad ds demo_list_request).1.2
  = Some "200 OK"
  ∧ (DomainsService_List demo_toPayLoad ds demo_list_request).1.2 = None
  ∧ (RecordsService_List demo_toPayLoad rs demo_record_list_request).1.2
    = None
  ∧ (RecordsService_Create demo_toPayLoad rs "12345" demo_template).1.2
    = None
  ∧ (RecordsService_Get demo_toPayLoad rs "12345" "99").1.2 = None
  ∧ (RecordsService_Update demo_toPayLoad rs "12345" "99" demo_template).1.2
    = None
  ∧ (RecordsService_Remark demo_toPayLoad rs "12345" "99" demo_template).1.2
    = None
  ∧ (RecordsService_Delete demo_toPayLoad rs "12345" "99").1 = None
  ∧ (DomainsService_List demo_toPayLoad (demo_domains status_ok None)
       demo_list_request).1.2 = Some "200 OK".
Proof.
  intros ds rs.
  destruct (response_descriptor_dropped_on_status_failure demo_toPayLoad
              ds rs)
    as (H1 & H2 & H3 & H4 & H5 & H6 & H7).
  destruct (response_descriptor_dropped_on_status_failure demo_toPayLoad
              (demo_domains status_ok None) rs)
    as (H1' & _).
  split_and!;
    [ reflexivity | on_demo H1 | on_demo H2 | on_demo H3 | on_demo H4
    | on_demo H5 | on_demo H6 | on_demo H7 | on_demo H1' ].
Defined.

(** * Further properties of the builders and the operations *)

Section Payloads.

Context {Response CommonParams TransportError : Type}.
Variable toPayLoad : CommonParams → Values.

Local Abbreviation DomainsService' :=
  (DomainsService Response CommonParams TransportError).
Local Abbreviation RecordsService' :=
  (RecordsService Response CommonParams TransportError).

(** Turns [k ∉ keys] into one inequality per key and reads the goal's
    lookup through the steps of the builder, none of which is at [k]. *)
Ltac frame H :=
  unfold DomainLogRequest_keys, DomainListRequest_keys,
    RecordListRequest_keys, DomainsService_Create_keys,
    RecordsService_Update_keys, RecordsService_Create_keys,
    RecordsService_Remark_keys in H;
  rewrite ?not_elem_of_cons in H; destruct_and?;
  repeat match goal with
         | E : _ ≠ String _ _ |- _ => apply not_eq_sym in E
         end;
  unfold record_attribute_steps, DomainsService_Create_payload,
    DomainsService_id_payload, RecordsService_id_payload;
  cbv zeta;
  repeat first
    [ rewrite lookup_guarded_Add_ne by assumption
    | rewrite lookup_guarded_Set_ne by assumption
    | rewrite lookup_Values_Add_ne by assumption
    | rewrite lookup_Values_Set_ne by assumption ];
  reflexivity.

(** X1: a builder touches its own keys only.  At every other key the
    payload holds what [CommonParams.toPayLoad] put there: the login data
    and whatever else the common parameters carry reach the transport
    unchanged, and no builder ever sends a key outside its list (so
    [Update] never sends [remark], and [Remark] none of the record's
    attributes). *)
Theorem builders_keep_other_keys (k : string) :
  (∀ c : DomainLogRequest CommonParams,
     k ∉ DomainLogRequest_keys →
     DomainLogRequest_toPayLoad toPayLoad c !! k
     = toPayLoad (DomainLogRequest_CommonParams c) !! k)
  ∧ (∀ c : DomainListRequest CommonParams,
       k ∉ DomainListRequest_keys →
       DomainListRequest_toPayLOad toPayLoad c !! k
       = toPayLoad (DomainListRequest_CommonParams c) !! k)
  ∧ (∀ r : RecordListRequest CommonParams,
       k ∉ RecordListRequest_keys →
       RecordListRequest_toPayLOad toPayLoad r !! k
       = toPayLoad (RecordListRequest_CommonParams r) !! k)
  ∧ (∀ (s : DomainsService') (a : Domain),
       k ∉ DomainsService_Create_keys →
       DomainsService_Create_payload toPayLoad s a !! k
       = toPayLoad (Client_CommonParams (DomainsService_client s)) !! k)
  ∧ (∀ (s : DomainsService') (id : Z),
       k ≠ "domain_id" →
       DomainsService_id_payload toPayLoad s id !! k
       = toPayLoad (Client_CommonParams (DomainsService_client s)) !! k)
  ∧ (∀ (s : RecordsService') (domain : string) (a : Record_),
       k ∉ RecordsService_Create_keys →
       RecordsService_Create_payload toPayLoad s domain a !! k
       = toPayLoad (Client_CommonParams (RecordsService_client s)) !! k)
  ∧ (∀ (s : RecordsService') (domain recordID : string),
       k ∉ ["domain_id"; "record_id"] →
       RecordsService_id_payload toPayLoad s domain recordID !! k
       = toPayLoad (Client_CommonParams (RecordsService_client s)) !! k)
  ∧ (∀ (s : RecordsService') (domain recordID : string) (a : Record_),
       k ∉ RecordsService_Update_keys →
       RecordsService_Update_payload toPayLoad s domain recordID a !! k
       = toPayLoad (Client_CommonParams (RecordsService_client s)) !! k)
  ∧ (∀ (s : RecordsService') (domain recordID : string) (a : Record_),
       k ∉ RecordsService_Remark_keys →
       RecordsService_Remark_payload toPayLoad s domain recordID a !! k
       = toPayLoad (Client_CommonParams (RecordsService_client s)) !! k).
Proof.
  split_and!.
  - intros c H. rewrite DomainLogRequest_toPayLoad_steps.
    destruct (decide (DomainLogRequest_DomainId c ≠ "")); frame H.
  - intros c H. rewrite DomainListRequest_toPayLOad_steps. frame H.
  - intros r H. rewrite RecordListRequest_toPayLOad_steps. frame H.
  - intros s a H. frame H.
  - intros s id H. frame H.
  - intros s domain a H. rewrite RecordsService_Create_payload_steps.
    frame H.
  - intros s domain recordID H. frame H.
  - intros s domain recordID a H.
    rewrite RecordsService_Update_payload_steps. frame H.
  - intros s domain recordID a H.
    rewrite RecordsService_Remark_payload_steps. frame H.
Qed.

(** Reads the goal's lookups through the steps of the builder and settles
    the tests on the fields. *)
Ltac own_keys :=
  unfold attributes_appended, record_attribute_steps,
    DomainsService_id_payload, RecordsService_id_payload;
  cbv zeta; repeat split; lookup_steps;
  unfold overwritten, appended, optional;
  repeat case_decide; simpl; (congruence || tauto).

(** X2: the builders of the domain service write with [Set]: a field that
    is not empty replaces whatever the common parameters held at its key,
    so the key has that one value, and an empty field leaves the key as the
    common parameters had it.  [DomainLogRequest] sets [domain] whenever
    [DomainId] is empty, and [Get] and [Delete] always set [domain_id]. *)
Theorem domain_builders_overwrite :
  (∀ c : DomainListRequest CommonParams,
     let common := toPayLoad (DomainListRequest_CommonParams c) in
     let p := DomainListRequest_toPayLOad toPayLoad c in
     p !! "type"
       = overwritten (common !! "type") (optional (DomainListRequest_Type c))
     ∧ p !! "offset"
       = overwritten (common !! "offset")
           (optional (DomainListRequest_Offset c))
     ∧ p !! "length"
       = overwritten (common !! "length")
           (optional (DomainListRequest_Length c))
     ∧ p !! "group_id"
       = overwritten (common !! "group_id")
           (optional (DomainListRequest_GroupId c))
     ∧ p !! "keyword"
       = overwritten (common !! "keyword")
           (optional (DomainListRequest_Keyword c)))
  ∧ (∀ c : DomainLogRequest CommonParams,
       let common := toPayLoad (DomainLogRequest_CommonParams c) in
       let p := DomainLogRequest_toPayLoad toPayLoad c in
       p !! "domain_id"
         = overwritten (common !! "domain_id")
             (optional (DomainLogRequest_DomainId c))
       ∧ p !! "domain"
         = (if decide (DomainLogRequest_DomainId c = "")
            then Some [DomainLogRequest_Domain c] else common !! "domain")
       ∧ p !! "offset"
         = (if decide (DomainLogRequest_Offset c = 0%Z)
            then common !! "offset"
            else Some [Itoa (DomainLogRequest_Offset c)])
       ∧ p !! "length"
         = (if decide (DomainLogRequest_Length c = 0%Z)
            then common !! "length"
            else Some [Itoa (DomainLogRequest_Length c)]))
  ∧ (∀ (s : DomainsService') (id : Z),
       DomainsService_id_payload toPayLoad s id !! "domain_id"
       = Some [Itoa id]).
Proof.
  split_and!.
  - intros c common p. subst common p.
    rewrite DomainListRequest_toPayLOad_steps. own_keys.
  - intros c common p. subst common p.
    rewrite DomainLogRequest_toPayLoad_steps.
    destruct (decide (DomainLogRequest_DomainId c ≠ "")); own_keys.
  - intros s id. own_keys.
Qed.

(** X3: the builders of the record service write with [Add]: a value is put
    behind the values the common parameters already hold at the key, so a
    key the common parameters carry ends up with two values.  The [domain]
    argument and, in [Get] and [Delete], the [recordID] argument are added
    without a test, empty or not. *)
Theorem record_builders_append :
  (∀ r : RecordListRequest CommonParams,
     let common := toPayLoad (RecordListRequest_CommonParams r) in
     let p := RecordListRequest_toPayLOad toPayLoad r in
     p !! "domain_id"
       = appended (common !! "domain_id")
           (optional (RecordListRequest_DomainId r))
     ∧ p !! "domain"
       = appended (common !! "domain") (optional (RecordListRequest_Domain r))
     ∧ p !! "offset"
       = appended (common !! "offset") (optional (RecordListRequest_Offset r))
     ∧ p !! "length"
       = appended (common !! "length") (optional (RecordListRequest_Length r))
     ∧ p !! "sub_domain"
       = appended (common !! "sub_domain")
           (optional (RecordListRequest_SubDomain r))
     ∧ p !! "record_type"
       = appended (common !! "record_type")
           (optional (RecordListRequest_RecordType r))
     ∧ p !! "record_line"
       = appended (common !! "record_line")
           (optional (RecordListRequest_RecordLine r))
     ∧ p !! "record_line_id"
       = appended (common !! "record_line_id")
           (optional (RecordListRequest_RecordLIneId r))
     ∧ p !! "keyword"
       = appended (common !! "keyword")
           (optional (RecordListRequest_KeyWord r)))
  ∧ (∀ (s : RecordsService') (domain recordID : string) (a : Record_),
       let common :=
         toPayLoad (Client_CommonParams (RecordsService_client s)) in
       let created := RecordsService_Create_payload toPayLoad s domain a in
       let updated :=
         RecordsService_Update_payload toPayLoad s domain recordID a in
       let remarked :=
         RecordsService_Remark_payload toPayLoad s domain recordID a in
       let fetched := RecordsService_id_payload toPayLoad s domain recordID in
       attributes_appended common created a
       ∧ attributes_appended common updated a
       ∧ remarked !! "remark"
         = appended (common !! "remark") (optional (Record_Remark a))
       ∧ created !! "domain_id"
         = appended (common !! "domain_id") (Some domain)
       ∧ updated !! "domain_id"
         = appended (common !! "domain_id") (Some domain)
       ∧ remarked !! "domain_id"
         = appended (common !! "domain_id") (Some domain)
       ∧ fetched !! "domain_id"
         = appended (common !! "domain_id") (Some domain)
       ∧ fetched !! "record_id"
         = appended (common !! "record_id") (Some recordID)).
Proof.
  split.
  - intros r common p. subst common p.
    rewrite RecordListRequest_toPayLOad_steps. own_keys.
  - intros s domain recordID a common created updated remarked fetched.
    subst common created updated remarked fetched.
    rewrite RecordsService_Create_payload_steps.
    rewrite RecordsService_Update_payload_steps.
    rewrite RecordsService_Remark_payload_steps.
    own_keys.
Qed.

(** X4: a filter with nothing filled in adds nothing.  The payload of an
    empty [DomainListRequest] or [RecordListRequest] is the common
    parameters' payload itself; a [RecordListRequest] with only [DomainId]
    set sends the common parameters and that [domain_id]; and
    [RecordsService.Create] with a template without attributes sends the
    common parameters and [domain_id]. *)
Theorem empty_filters_add_nothing :
  (∀ c : DomainListRequest CommonParams,
     DomainListRequest_Type c = "" →
     DomainListRequest_Offset c = "" →
     DomainListRequest_Length c = "" →
     DomainListRequest_GroupId c = "" →
     DomainListRequest_Keyword c = "" →
     DomainListRequest_toPayLOad toPayLoad c
     = toPayLoad (DomainListRequest_CommonParams c))
  ∧ (∀ r : RecordListRequest CommonParams,
       RecordListRequest_Domain r = "" →
       RecordListRequest_Offset r = "" →
       RecordListRequest_Length r = "" →
       RecordListRequest_SubDomain r = "" →
       RecordListRequest_RecordType r = "" →
       RecordListRequest_RecordLine r = "" →
       RecordListRequest_RecordLIneId r = "" →
       RecordListRequest_KeyWord r = "" →
       RecordListRequest_toPayLOad toPayLoad r
       = (if decide (RecordListRequest_DomainId r ≠ "")
          then Values_Add "domain_id" (RecordListRequest_DomainId r)
                 (toPayLoad (RecordListRequest_CommonParams r))
          else toPayLoad (RecordListRequest_CommonParams r)))
  ∧ (∀ (s : RecordsService') (domain : string) (a : Record_),
       Record_Name a = "" →
       Record_Type a = "" →
       Record_Line a = "" →
       Record_LineID a = "" →
       Record_Value a = "" →
       Record_MX a = "" →
       Record_TTL a = "" →
       Record_Status a = "" →
       RecordsService_Create_payload toPayLoad s domain a
       = Values_Add "domain_id" domain
           (toPayLoad (Client_CommonParams (RecordsService_client s)))).
Proof.
  split_and!.
  - intros [cp ? ? ? ? ?]; simpl; intros; subst. reflexivity.
  - intros [cp ? ? ? ? ? ? ? ? ?]; simpl; intros; subst. reflexivity.
  - intros s domain [? ? ? ? ? ? ? ? ? ? ? ? ? ?]; simpl; intros; subst.
    reflexivity.
Qed.

(** Splits on [k] being one of [keys]. *)
Ltac by_key k keys :=
  lazymatch keys with
  | @nil _ => idtac
  | @cons _ ?x ?rest =>
    destruct (decide (x = k)) as [<- | ?]; [ | by_key k rest ]
  end.

(** X5: the payload of [Update] is the payload of [Create] for the same
    domain and template with one more step, [Add("record_id", v)], where [v]
    is the template's [ID] or, when that is empty, the [recordID] argument;
    with both empty the two payloads are the same. *)
Theorem update_payload_is_create_payload_with_record_id
    (s : RecordsService') (domain recordID : string) (a : Record_) :
  RecordsService_Update_payload toPayLoad s domain recordID a
  = (if decide (Record_ID a ≠ "")
     then Values_Add "record_id" (Record_ID a)
            (RecordsService_Create_payload toPayLoad s domain a)
     else if decide (recordID ≠ "")
     then Values_Add "record_id" recordID
            (RecordsService_Create_payload toPayLoad s domain a)
     else RecordsService_Create_payload toPayLoad s domain a).
Proof.
  rewrite RecordsService_Update_payload_steps.
  rewrite RecordsService_Create_payload_steps.
  unfold record_attribute_steps.
  apply map_eq. intros k.
  destruct (decide (Record_ID a ≠ "")) as [Hid | Hid];
    [ | destruct (decide (recordID ≠ "")) as [Hrid | Hrid] ].
  all: by_key k
         [ "record_id"; "domain_id"; "sub_domain"; "record_type";
           "record_line"; "record_line_id"; "value"; "mx"; "ttl"; "status" ].
  all: lookup_steps.
  all: repeat first
         [ rewrite lookup_guarded_Add_ne by assumption
         | rewrite lookup_Values_Add_ne by assumption ].
  all: repeat case_decide; simpl; (congruence || tauto).
Qed.

(** X6: the numbers the domain service sends read back as they were given.
    [Get] and [Delete] send their [id] in [domain_id] whatever it is, zero
    and negative numbers included, so two ids never give the same payload;
    a [DomainLogRequest] sends an [Offset] or [Length] other than zero so
    that it reads back as that number. *)
Theorem numbers_read_back :
  (∀ (s : DomainsService') (id : Z),
     sent_number (DomainsService_id_payload toPayLoad s id) "domain_id"
     = Some id)
  ∧ (∀ (s : DomainsService') (id id' : Z),
       DomainsService_id_payload toPayLoad s id
       = DomainsService_id_payload toPayLoad s id' →
       id = id')
  ∧ (∀ c : DomainLogRequest CommonParams,
       DomainLogRequest_Offset c ≠ 0%Z →
       sent_number (DomainLogRequest_toPayLoad toPayLoad c) "offset"
       = Some (DomainLogRequest_Offset c))
  ∧ (∀ c : DomainLogRequest CommonParams,
       DomainLogRequest_Length c ≠ 0%Z →
       sent_number (DomainLogRequest_toPayLoad toPayLoad c) "length"
       = Some (DomainLogRequest_Length c)).
Proof.
  assert (Hid : ∀ (s : DomainsService') (id : Z),
            sent_number (DomainsService_id_payload toPayLoad s id) "domain_id"
            = Some id).
  { intros s id. unfold sent_number, DomainsService_id_payload. cbv zeta.
    rewrite lookup_Values_Set_eq. apply Itoa_decimal_value. }
  split_and!.
  - exact Hid.
  - intros s id id' H.
    pose proof (Hid s id) as H1. rewrite H, Hid in H1. by injection H1.
  - intros c Hc. unfold sent_number.
    rewrite DomainLogRequest_toPayLoad_steps. lookup_steps.
    rewrite decide_True by done. apply Itoa_decimal_value.
  - intros c Hc. unfold sent_number.
    rewrite DomainLogRequest_toPayLoad_steps. lookup_steps.
    rewrite decide_True by done. apply Itoa_decimal_value.
Qed.

(** X7: the three list operations build their payload from the common
    parameters embedded in the request and never read those of the client:
    two clients with the same [post] and different common parameters give
    the same result.  (The other operations start from the client's.) *)
Theorem list_operations_ignore_client_common_params
    (cp1 cp2 : CommonParams)
    (post : ∀ k : wrapperKind,
       string → Values → wrapperOf k →
       wrapperOf k * option Response * option (error TransportError)) :
  (∀ request,
     DomainsService_List toPayLoad
       (mkDomainsService (mkClient cp1 post)) request
     = DomainsService_List toPayLoad
         (mkDomainsService (mkClient cp2 post)) request)
  ∧ (∀ request,
       DomainsService_Log toPayLoad
         (mkDomainsService (mkClient cp1 post)) request
       = DomainsService_Log toPayLoad
           (mkDomainsService (mkClient cp2 post)) request)
  ∧ (∀ request,
       RecordsService_List toPayLoad
         (mkRecordsService (mkClient cp1 post)) request
       = RecordsService_List toPayLoad
           (mkRecordsService (mkClient cp2 post)) request).
Proof. split_and!; intros; reflexivity. Qed.

(** X8: the payloads read only part of the template.
    [DomainsService.Create] sends the name, the group id and the mark and
    nothing else of the [Domain]; [RecordsService.Create] eight attributes
    of the [Record]; [Update] those and the [ID]; [Remark] the [ID] and the
    remark.  Two templates that agree there give the same payload, whatever
    their other fields (such as [Enabled], or [Remark] in [Update])
    hold. *)
Theorem payloads_read_part_of_the_template :
  (∀ (s : DomainsService') (a b : Domain),
     Domain_Name a = Domain_Name b →
     Domain_GroupID a = Domain_GroupID b →
     Domain_IsMark a = Domain_IsMark b →
     DomainsService_Create_payload toPayLoad s a
     = DomainsService_Create_payload toPayLoad s b)
  ∧ (∀ (s : RecordsService') (domain recordID : string) (a b : Record_),
       Record_Name a = Record_Name b →
       Record_Type a = Record_Type b →
       Record_Line a = Record_Line b →
       Record_LineID a = Record_LineID b →
       Record_Value a = Record_Value b →
       Record_MX a = Record_MX b →
       Record_TTL a = Record_TTL b →
       Record_Status a = Record_Status b →
       RecordsService_Create_payload toPayLoad s domain a
       = RecordsService_Create_payload toPayLoad s domain b
       ∧ (Record_ID a = Record_ID b →
          RecordsService_Update_payload toPayLoad s domain recordID a
          = RecordsService_Update_payload toPayLoad s domain recordID b))
  ∧ (∀ (s : RecordsService') (domain recordID : string) (a b : Record_),
       Record_ID a = Record_ID b →
       Record_Remark a = Record_Remark b →
       RecordsService_Remark_payload toPayLoad s domain recordID a
       = RecordsService_Remark_payload toPayLoad s domain recordID b).
Proof.
  split_and!.
  - intros s [] []; simpl; intros; subst. reflexivity.
  - intros s domain recordID [] []; simpl; intros; subst.
    split; [reflexivity | intros; subst; reflexivity].
  - intros s domain recordID [] []; simpl; intros; subst. reflexivity.
Qed.

End Payloads.

(** X2 and X3 side by side: on common parameters that hold [offset=5], a
    domain list request with [Offset] 10 sends [offset=10], a record list
    request with [Offset] 10 sends [offset=5] and [offset=10]. *)
Example offset_set_and_added :
  DomainListRequest_toPayLOad demo_toPayLoad_offset demo_list_request_paged
    !! "offset" = Some ["10"]
  ∧ RecordListRequest_toPayLOad demo_toPayLoad_offset
      demo_record_list_request_paged !! "offset" = Some ["5"; "10"].
Proof. split; reflexivity. Qed.

Section Results.

Context {Response CommonParams TransportError : Type}.
Variable toPayLoad : CommonParams → Values.

Local Abbreviation DomainsService' :=
  (DomainsService Response CommonParams TransportError).
Local Abbreviation RecordsService' :=
  (RecordsService Response CommonParams TransportError).

(** Names the outcome of the operation's call and runs the operation on
    it. *)
Ltac run call :=
  let w := fresh "w" in
  let res := fresh "res" in
  let err := fresh "err" in
  let H := fresh "H" in
  destruct call as [[w res] err] eqn:H;
  revert H;
  unfold DomainsService_List, DomainsService_List_post,
    DomainsService_Create, DomainsService_Create_post,
    DomainsService_Get, DomainsService_Get_post,
    DomainsService_Log, DomainsService_Log_post,
    RecordsService_List, RecordsService_List_post,
    RecordsService_Create, RecordsService_Create_post,
    RecordsService_Get, RecordsService_Get_post,
    RecordsService_Update, RecordsService_Update_post,
    RecordsService_Remark, RecordsService_Remark_post,
    RecordsService_Delete, RecordsService_Delete_post, fmt_Errorf;
  cbv zeta; intros ->; simpl;
  destruct err; simpl; repeat case_decide; simpl.

(** X9: an operation that checks the status succeeds in one case only.  Its
    error is [nil] exactly when the call reported no error and the status
    code in the envelope is ["1"]. *)
Theorem no_error_iff_transport_and_status_ok
    (ds : DomainsService') (rs : RecordsService') :
  (∀ request,
     let call := DomainsService_List_post toPayLoad ds request in
     (DomainsService_List toPayLoad ds request).2 = None
     ↔ call.2 = None
       ∧ Status_Code (domainListWrapper_Status call.1.1) = "1")
  ∧ (∀ request,
       let call := DomainsService_Log_post toPayLoad ds request in
       (DomainsService_Log toPayLoad ds request).2 = None
       ↔ call.2 = None
         ∧ Status_Code (domainLogWrapper_Status call.1.1) = "1")
  ∧ (∀ request,
       let call := RecordsService_List_post toPayLoad rs request in
       (RecordsService_List toPayLoad rs request).2 = None
       ↔ call.2 = None
         ∧ Status_Code (recordsWrapper_Status call.1.1) = "1")
  ∧ (∀ domain a,
       let call := RecordsService_Create_post toPayLoad rs domain a in
       (RecordsService_Create toPayLoad rs domain a).2 = None
       ↔ call.2 = None
         ∧ Status_Code (recordWrapper_Status call.1.1) = "1")
  ∧ (∀ domain recordID,
       let call := RecordsService_Get_post toPayLoad rs domain recordID in
       (RecordsService_Get toPayLoad rs domain recordID).2 = None
       ↔ call.2 = None
         ∧ Status_Code (recordWrapper_Status call.1.1) = "1")
  ∧ (∀ domain recordID a,
       let call :=
         RecordsService_Update_post toPayLoad rs domain recordID a in
       (RecordsService_Update toPayLoad rs domain recordID a).2 = None
       ↔ call.2 = None
         ∧ Status_Code (recordWrapper_Status call.1.1) = "1")
  ∧ (∀ domain recordID a,
       let call :=
         RecordsService_Remark_post toPayLoad rs domain recordID a in
       (RecordsService_Remark toPayLoad rs domain recordID a).2 = None
       ↔ call.2 = None
         ∧ Status_Code (recordWrapper_Status call.1.1) = "1")
  ∧ (∀ domain recordID,
       let call := RecordsService_Delete_post toPayLoad rs domain recordID in
       (RecordsService_Delete toPayLoad rs domain recordID).2 = None
       ↔ call.2 = None
         ∧ Status_Code (recordWrapper_Status call.1.1) = "1").
Proof.
  split_and!; intros; subst call.
  - run (DomainsService_List_post toPayLoad ds request); intuition (congruence || contradiction).
  - run (DomainsService_Log_post toPayLoad ds request); intuition (congruence || contradiction).
  - run (RecordsService_List_post toPayLoad rs request); intuition (congruence || contradiction).
  - run (RecordsService_Create_post toPayLoad rs domain a); intuition (congruence || contradiction).
  - run (RecordsService_Get_post toPayLoad rs domain recordID);
      intuition (congruence || contradiction).
  - run (RecordsService_Update_post toPayLoad rs domain recordID a);
      intuition (congruence || contradiction).
  - run (RecordsService_Remark_post toPayLoad rs domain recordID a);
      intuition (congruence || contradiction).
  - run (RecordsService_Delete_post toPayLoad rs domain recordID);
      intuition (congruence || contradiction).
Qed.

(** X10: the list operations and the domain operations never hand out data
    next to an error.  Whenever [DomainsService.List], [Log] or
    [RecordsService.List] return an error their slice is [nil], and whenever
    [DomainsService.Create] or [Get] return an error their domain is the
    zero [Domain]. *)
Theorem error_comes_without_data
    (ds : DomainsService') (rs : RecordsService') :
  (∀ request,
     (DomainsService_List toPayLoad ds request).2 ≠ None →
     (DomainsService_List toPayLoad ds request).1.1 = None)
  ∧ (∀ request,
       (DomainsService_Log toPayLoad ds request).2 ≠ None →
       (DomainsService_Log toPayLoad ds request).1 = None)
  ∧ (∀ request,
       (RecordsService_List toPayLoad rs request).2 ≠ None →
       (RecordsService_List toPayLoad rs request).1.1 = None)
  ∧ (∀ a,
       (DomainsService_Create toPayLoad ds a).2 ≠ None →
       (DomainsService_Create toPayLoad ds a).1.1 = Domain_zero)
  ∧ (∀ id,
       (DomainsService_Get toPayLoad ds id).2 ≠ None →
       (DomainsService_Get toPayLoad ds id).1.1 = Domain_zero).
Proof.
  split_and!; intros *.
  - run (DomainsService_List_post toPayLoad ds request); naive_solver.
  - run (DomainsService_Log_post toPayLoad ds request); naive_solver.
  - run (RecordsService_List_post toPayLoad rs request); naive_solver.
  - run (DomainsService_Create_post toPayLoad ds a); naive_solver.
  - run (DomainsService_Get_post toPayLoad ds id); naive_solver.
Qed.

(** X11: a call that reports no error and leaves the envelope as it was
    passed, empty, is a failure with an empty message for the operations
    that check the status, since the empty status code is not ["1"]: the
    lists return [nil], the record operations the zero [Record], all with
    the bare prefix as error text and no descriptor.  [DomainsService.Create]
    and [Get], which do not check, return the zero [Domain] as a success. *)
Theorem untouched_envelope
    (ds : DomainsService') (rs : RecordsService') :
  (∀ request res,
     DomainsService_List_post toPayLoad ds request
     = (domainListWrapper_zero, res, None) →
     DomainsService_List toPayLoad ds request
     = (None, None, Some (errorString "could not get domains: ")))
  ∧ (∀ request res,
       DomainsService_Log_post toPayLoad ds request
       = (domainLogWrapper_zero, res, None) →
       DomainsService_Log toPayLoad ds request
       = (None, Some (errorString "could not get domain logs: ")))
  ∧ (∀ request res,
       RecordsService_List_post toPayLoad rs request
       = (recordsWrapper_zero, res, None) →
       RecordsService_List toPayLoad rs request
       = (None, None, Some (errorString "could not get domains: ")))
  ∧ (∀ domain a res,
       RecordsService_Create_post toPayLoad rs domain a
       = (recordWrapper_zero, res, None) →
       RecordsService_Create toPayLoad rs domain a
       = (Record_zero, None, Some (errorString "could not get domains: ")))
  ∧ (∀ domain recordID res,
       RecordsService_Get_post toPayLoad rs domain recordID
       = (recordWrapper_zero, res, None) →
       RecordsService_Get toPayLoad rs domain recordID
       = (Record_zero, None, Some (errorString "could not get domains: ")))
  ∧ (∀ domain recordID a res,
       RecordsService_Update_post toPayLoad rs domain recordID a
       = (recordWrapper_zero, res, None) →
       RecordsService_Update toPayLoad rs domain recordID a
       = (Record_zero, None, Some (errorString "could not get domains: ")))
  ∧ (∀ domain recordID a res,
       RecordsService_Remark_post toPayLoad rs domain recordID a
       = (recordWrapper_zero, res, None) →
       RecordsService_Remark toPayLoad rs domain recordID a
       = (Record_zero, None, Some (errorString "could not get domains: ")))
  ∧ (∀ domain recordID res,
       RecordsService_Delete_post toPayLoad rs domain recordID
       = (recordWrapper_zero, res, None) →
       RecordsService_Delete toPayLoad rs domain recordID
       = (None, Some (errorString "could not get domains: ")))
  ∧ (∀ a res,
       DomainsService_Create_post toPayLoad ds a
       = (domainWrapper_zero, res, None) →
       DomainsService_Create toPayLoad ds a = (Domain_zero, res, None))
  ∧ (∀ id res,
       DomainsService_Get_post toPayLoad ds id
       = (domainWrapper_zero, res, None) →
       DomainsService_Get toPayLoad ds id = (Domain_zero, res, None)).
Proof.
  split_and!; intros * Hcall.
  - run (DomainsService_List_post toPayLoad ds request); naive_solver.
  - run (DomainsService_Log_post toPayLoad ds request); naive_solver.
  - run (RecordsService_List_post toPayLoad rs request); naive_solver.
  - run (RecordsService_Create_post toPayLoad rs domain a); naive_solver.
  - run (RecordsService_Get_post toPayLoad rs domain recordID);
      naive_solver.
  - run (RecordsService_Update_post toPayLoad rs domain recordID a);
      naive_solver.
  - run (RecordsService_Remark_post toPayLoad rs domain recordID a);
      naive_solver.
  - run (RecordsService_Delete_post toPayLoad rs domain recordID);
      naive_solver.
  - run (DomainsService_Create_post toPayLoad ds a); naive_solver.
  - run (DomainsService_Get_post toPayLoad ds id); naive_solver.
Qed.

End Results.

(** Settles [k ∉ keys] for a literal key and list. *)
Ltac not_a_key :=
  unfold DomainLogRequest_keys, DomainListRequest_keys,
    RecordListRequest_keys, DomainsService_Create_keys,
    RecordsService_Update_keys, RecordsService_Create_keys,
    RecordsService_Remark_keys;
  repeat (apply not_elem_of_cons; split; [discriminate |]);
  apply not_elem_of_nil.

(** X1, two instances: the login token reaches the payload of a domain
    list request, and [Update] with the template [Record{ID:"", Remark:"x"}]
    sends no [remark]. *)
Lemma builders_keep_other_keys_witness :
  ("login_token" ∉ DomainListRequest_keys)
  ∧ DomainListRequest_toPayLOad demo_toPayLoad demo_list_request
      !! "login_token" = Some ["token"]
  ∧ ("remark" ∉ RecordsService_Update_keys)
  ∧ Record_Remark demo_template = "x"
  ∧ RecordsService_Update_payload demo_toPayLoad
      (demo_records status_ok None) "12345" "99" demo_template
      !! "remark" = None.
Proof.
  destruct (builders_keep_other_keys (Response := string)
              (TransportError := string) demo_toPayLoad "login_token")
    as (_ & Hlist & _).
  destruct (builders_keep_other_keys (Response := string)
              (TransportError := string) demo_toPayLoad "remark")
    as (_ & _ & _ & _ & _ & _ & _ & Hupdate & _).
  split_and!.
  - not_a_key.
  - eapply eq_trans; [apply Hlist; not_a_key | reflexivity].
  - not_a_key.
  - reflexivity.
  - eapply eq_trans;
      [ apply (Hupdate (demo_records status_ok None)); not_a_key
      | reflexivity ].
Defined.

(** X4, an instance: a record list request with [DomainId = "12345"] and
    no other filter sends the common parameters and [domain_id=12345]. *)
Lemma empty_filters_add_nothing_witness :
  RecordListRequest_toPayLOad demo_toPayLoad demo_record_list_request
  = Values_Add "domain_id" "12345" (demo_toPayLoad "token")
  ∧ RecordsService_Create_payload demo_toPayLoad
      (demo_records status_ok None) "12345" demo_template
    = Values_Add "domain_id" "12345" (demo_toPayLoad "token").
Proof.
  destruct (empty_filters_add_nothing (Response := string)
              (TransportError := string) demo_toPayLoad)
    as (_ & Hrecords & Hcreate).
  split.
  - eapply eq_trans; [apply Hrecords; reflexivity | reflexivity].
  - apply (Hcreate (demo_records status_ok None)); reflexivity.
Defined.

(** X6, an instance: [Get 42] sends an id that reads back as 42, and the
    log request with [Length] 50 a length that reads back as 50. *)
Lemma numbers_read_back_witness :
  sent_number
    (DomainsService_id_payload demo_toPayLoad (demo_domains status_ok None)
       42) "domain_id" = Some 42%Z
  ∧ DomainLogRequest_Length demo_log_request ≠ 0%Z
  ∧ sent_number (DomainLogRequest_toPayLoad demo_toPayLoad demo_log_request)
      "length" = Some 50%Z.
Proof.
  destruct (numbers_read_back (Response := string)
              (TransportError := string) demo_toPayLoad)
    as (Hid & _ & _ & Hlength).
  split_and!.
  - apply (Hid (demo_domains status_ok None) 42%Z).
  - discriminate.
  - apply (Hlength demo_log_request). discriminate.
Defined.

(** X8, an instance: the template [Record{Remark:"x"}] and the zero record
    give [Create] and [Update] the same payload. *)
Lemma payloads_read_part_of_the_template_witness :
  demo_template ≠ Record_zero
  ∧ RecordsService_Create_payload demo_toPayLoad
      (demo_records status_ok None) "12345" demo_template
    = RecordsService_Create_payload demo_toPayLoad
        (demo_records status_ok None) "12345" Record_zero
  ∧ RecordsService_Update_payload demo_toPayLoad
      (demo_records status_ok None) "12345" "99" demo_template
    = RecordsService_Update_payload demo_toPayLoad
        (demo_records status_ok None) "12345" "99" Record_zero.
Proof.
  destruct (payloads_read_part_of_the_template (Response := string)
              (TransportError := string) demo_toPayLoad)
    as (_ & Hrecord & _).
  destruct (Hrecord (demo_records status_ok None) "12345" "99"
              demo_template Record_zero
              eq_refl eq_refl eq_refl eq_refl eq_refl eq_refl eq_refl eq_refl)
    as (Hcreate & Hupdate).
  split_and!; [discriminate | exact Hcreate | exact (Hupdate eq_refl)].
Defined.

(** X9, two instances: [List] answered with the status ["1"] has no error;
    answered with the status ["6"] it has one. *)
Lemma no_error_iff_transport_and_status_ok_witness :
  (DomainsService_List demo_toPayLoad (demo_domains status_ok None)
     demo_list_request).2 = None
  ∧ (DomainsService_List demo_toPayLoad (demo_domains status_failed None)
       demo_list_request).2 ≠ None.
Proof.
  destruct (no_error_iff_transport_and_status_ok demo_toPayLoad
              (demo_domains status_ok None) (demo_records status_ok None))
    as (Hok & _).
  destruct (no_error_iff_transport_and_status_ok demo_toPayLoad
              (demo_domains status_failed None)
              (demo_records status_failed None))
    as (Hfailed & _).
  split.
  - apply (Hok demo_list_request). split; reflexivity.
  - intros Hnone. apply (Hfailed demo_list_request) in Hnone.
    destruct Hnone as [_ Hcode]. discriminate Hcode.
Defined.

(** X10, an instance: answered with the status ["6"], [List] returns an
    error and the nil slice, although the envelope held a domain. *)
Lemma error_comes_without_data_witness :
  (DomainsService_List_post demo_toPayLoad (demo_domains status_failed None)
     demo_list_request).1.1
  = mkDomainListWrapper status_failed demo_info (Some [demo_domain])
  ∧ (DomainsService_List demo_toPayLoad (demo_domains status_failed None)
       demo_list_request).2 ≠ None
  ∧ (DomainsService_List demo_toPayLoad (demo_domains status_failed None)
       demo_list_request).1.1 = None.
Proof.
  destruct (error_comes_without_data demo_toPayLoad
              (demo_domains status_failed None)
              (demo_records status_failed None))
    as (Hlist & _).
  split_and!; [reflexivity | discriminate | ].
  apply (Hlist demo_list_request). discriminate.
Defined.

(** X11, an instance on the transport that decodes nothing: [List] fails
    with the bare prefix, [Get] returns the zero domain as a success. *)
Lemma untouched_envelope_witness :
  DomainsService_List demo_toPayLoad demo_domains_untouched demo_list_request
  = (None, None, Some (errorString "could not get domains: "))
  ∧ RecordsService_Get demo_toPayLoad demo_records_untouched "12345" "99"
    = (Record_zero, None, Some (errorString "could not get domains: "))
  ∧ DomainsService_Get demo_toPayLoad demo_domains_untouched 42
    = (Domain_zero, Some "200 OK", None).
Proof.
  destruct (untouched_envelope demo_toPayLoad demo_domains_untouched
              demo_records_untouched)
    as (Hlist & _ & _ & _ & Hget & _ & _ & _ & _ & Hdomain).
  split_and!.
  - apply (Hlist demo_list_request (Some "200 OK")). reflexivity.
  - apply (Hget "12345" "99" (Some "200 OK")). reflexivity.
  - apply (Hdomain 42%Z (Some "200 OK")). reflexivity.
Defined.
